(** * Salesforce extraction client: a shallow embedding and its properties

    The three Python modules of the repository
    ([helper_functions], [salesforce_authentication], [salesforce_rest_api])
    are embedded as Rocq functions.  Pure code is embedded as pure
    functions.  Code that reads the process environment, prints, or talks
    to the network runs in a small state-and-exception monad over a
    [World] that holds [os.environ], the remote server, the list of the
    HTTP requests sent so far and the lines printed so far. *)

From Stdlib Require Import ZArith Ascii String DecimalString.
From stdpp Require Import gmap strings list fin_maps.

Set Warnings "-register-all".

Open Scope Z_scope.
Open Scope string_scope.
Open Scope list_scope.

(** ** Python values *)

(** Python [str] values are embedded as byte strings.  The one-character
    strings that Rocq's string notation cannot spell are named here. *)
Definition dquote : ascii := "034"%char.
Definition newline : ascii := "010"%char.
Definition str1 (c : ascii) : string := String c EmptyString.

(** [str(n)] for a Python [int]. *)
Definition str_of_int (n : Z) : string := NilZero.string_of_int (Z.to_int n).

(** [sep.join(parts)] *)
Fixpoint join (sep : string) (parts : list string) : string :=
  match parts with
  | [] => EmptyString
  | [p] => p
  | p :: rest => p +:+ sep +:+ join sep rest
  end.

(** [s.replace(old, new)] where [old] is the single character [c]. *)
Fixpoint replace (c : ascii) (new : string) (s : string) : string :=
  match s with
  | EmptyString => EmptyString
  | String a rest =>
      if Ascii.eqb a c then new +:+ replace c new rest
      else String a (replace c new rest)
  end.

(** [s.upper()] on a string of ASCII characters: the letters [a-z] become
    [A-Z] and every other character stays. *)
Definition upper_char (a : ascii) : ascii :=
  let n := nat_of_ascii a in
  if ((97 <=? n)%nat && (n <=? 122)%nat)%bool then ascii_of_nat (n - 32) else a.

Fixpoint ascii_upper (s : string) : string :=
  match s with
  | EmptyString => EmptyString
  | String a rest => String (upper_char a) (ascii_upper rest)
  end.

(** A string all of whose bytes are ASCII characters. *)
Definition is_ascii (s : string) : bool :=
  forallb (fun a => (nat_of_ascii a <? 128)%nat) (list_ascii_of_string s).

(** The exceptions the embedded code can raise.  [Exception msg] is the
    [raise Exception(msg)] of the source; the others are raised by the
    interpreter or by a library on the source's behalf. *)
Inductive PyExn : Type :=
| Exception (msg : string)
| KeyError (key : string)
| AttributeError (what : string)
| TypeError (what : string)
| JSONDecodeError
| ParseError
| RecursionError.

(** JSON documents as [json.loads] builds them: an object is a Python dict,
    kept as the list of its members in insertion order, each key once.
    Numbers that are not integers are not represented. *)
Inductive JSON : Type :=
| JNull
| JBool (b : bool)
| JNum (n : Z)
| JStr (s : string)
| JArr (items : list JSON)
| JObj (members : list (string * JSON)).

(** [d[key]] / [d.get(key)] / [key in d] on the members of a dict. *)
Fixpoint dict_get (key : string) (members : list (string * JSON)) : option JSON :=
  match members with
  | [] => None
  | (k, v) :: rest => if String.eqb k key then Some v else dict_get key rest
  end.

(** * helper_functions.py: the pure part *)

(** [get_nested_values(key, data)]: [[d[key] for d in data]]. Iterating
    [data] and subscripting each [d] are typed as Python types them. *)
Definition py_iter (v : JSON) : PyExn + list JSON :=
  match v with
  | JArr items => inr items
  | JObj members => inr (map (fun kv => JStr (fst kv)) members)
  | JStr s => inr (map (fun c => JStr (str1 c)) (list_ascii_of_string s))
  | JNull => inl (TypeError "'NoneType' object is not iterable")
  | JBool _ => inl (TypeError "'bool' object is not iterable")
  | JNum _ => inl (TypeError "'int' object is not iterable")
  end.

Definition subscript_key (key : string) (d : JSON) : PyExn + JSON :=
  match d with
  | JObj members =>
      match dict_get key members with
      | Some v => inr v
      | None => inl (KeyError key)
      end
  | JStr _ => inl (TypeError "string indices must be integers")
  | JArr _ => inl (TypeError "list indices must be integers or slices")
  | _ => inl (TypeError "object is not subscriptable")
  end.

Fixpoint get_nested_values_items (key : string) (items : list JSON) : PyExn + list JSON :=
  match items with
  | [] => inr []
  | d :: rest =>
      match subscript_key key d with
      | inl e => inl e
      | inr v =>
          match get_nested_values_items key rest with
          | inl e => inl e
          | inr vs => inr (v :: vs)
          end
      end
  end.

Definition get_nested_values (key : string) (data : JSON) : PyExn + list JSON :=
  match py_iter data with
  | inl e => inl e
  | inr items => get_nested_values_items key items
  end.

(** * salesforce_authentication.py: the pure part *)

(** [xml.sax.saxutils.escape(data, entities)]: [&], [>], [<] are replaced in
    that order, then the caller's entities in dict order. *)
Definition escape (data : string) (entities : list (ascii * string)) : string :=
  let data := replace "&" "&amp;" data in
  let data := replace ">" "&gt;" data in
  let data := replace "<" "&lt;" data in
  fold_left (fun s kv => replace (fst kv) (snd kv) s) entities data.

Definition escape_chars (s : string) : string :=
  let extra_entities := [("'"%char, "&apos;"); (dquote, "&quot;")] in
  escape s extra_entities.


(** ** Element trees

    An element as [xml.etree.ElementTree] holds it: the tag in Clark
    notation ([{uri}local]), the text before the first child ([None] when
    there is none) and the children in document order. *)
Inductive Element : Type :=
| Elem (tag : string) (text : option string) (children : list Element).

Definition elem_tag (e : Element) : string := let 'Elem t _ _ := e in t.
Definition elem_text (e : Element) : option string := let 'Elem _ t _ := e in t.
Definition elem_children (e : Element) : list Element := let 'Elem _ _ cs := e in cs.

(** [elem.iter()]: the element and all its descendants, in document order. *)
Fixpoint elem_iter (e : Element) : list Element :=
  match e with
  | Elem _ _ cs => e :: flat_map elem_iter cs
  end.

(** The steps of an ElementPath expression after tokenizing, each with the
    selector ElementPath prepares for it. *)
Inductive Step : Type :=
| Self
| Descendant (tag : string)
| Child (tag : string).

Definition select (st : Step) (result : list Element) : list Element :=
  match st with
  | Self => result
  | Descendant tag =>
      flat_map (fun elem =>
        filter (fun e => elem_tag e = tag) (flat_map elem_iter (elem_children elem)))
        result
  | Child tag =>
      flat_map (fun elem => filter (fun e => elem_tag e = tag) (elem_children elem)) result
  end.

(** [elem.find(path)]: the first element the selectors yield. *)
Definition find (root : Element) (path : list Step) : option Element :=
  head (fold_left (fun result st => select st result) path [root]).

(** A prefixed name resolved against its namespace URI. *)
Definition clark (uri local : string) : string := "{" +:+ uri +:+ "}" +:+ local.

Definition soapenv : string := "http://schemas.xmlsoap.org/soap/envelope/".
Definition ns : string := "urn:partner.soap.sforce.com".

(** [.//soapenv:Body/ns:loginResponse/ns:result/ns:sessionId] *)
Definition session_id_path : list Step :=
  [ Self; Descendant (clark soapenv "Body"); Child (clark ns "loginResponse");
    Child (clark ns "result"); Child (clark ns "sessionId") ].

(** [get_body(username, password, security_token)]: only the password and
    the token go through [escape_chars]. *)
Definition get_body (username password security_token : string) : string :=
  let formatted_password := escape_chars password in
  let formatted_secutiry_token := escape_chars security_token in
  let q := str1 dquote in
  let nl := str1 newline in
  "<?xml version=" +:+ q +:+ "1.0" +:+ q +:+ " encoding=" +:+ q +:+ "utf-8" +:+ q +:+ " ?>" +:+ nl +:+
  "    <env:Envelope xmlns:xsd=" +:+ q +:+ "http://www.w3.org/2001/XMLSchema" +:+ q +:+ nl +:+
  "        xmlns:xsi=" +:+ q +:+ "http://www.w3.org/2001/XMLSchema-instance" +:+ q +:+ nl +:+
  "        xmlns:env=" +:+ q +:+ "http://schemas.xmlsoap.org/soap/envelope/" +:+ q +:+ ">" +:+ nl +:+
  "      <env:Body>" +:+ nl +:+
  "        <n1:login xmlns:n1=" +:+ q +:+ "urn:partner.soap.sforce.com" +:+ q +:+ ">" +:+ nl +:+
  "          <n1:username>" +:+ username +:+ "</n1:username>" +:+ nl +:+
  "          <n1:password>" +:+ formatted_password +:+ formatted_secutiry_token +:+ "</n1:password>" +:+ nl +:+
  "        </n1:login>" +:+ nl +:+
  "      </env:Body>" +:+ nl +:+
  "    </env:Envelope>".

Definition get_headers : list (string * string) :=
  [("SOAPAction", "login"); ("Content-Type", "text/xml"); ("charset", "UTF-8")].

(** * salesforce_rest_api.py: the pure part *)

(** Truth value of the [fields] and [limit] arguments: [None], the empty
    list and [0] are false. *)
Definition truthy_fields (fields : option (list string)) : bool :=
  match fields with
  | Some (_ :: _) => true
  | _ => false
  end.

Definition truthy_limit (limit : option Z) : bool :=
  match limit with
  | Some n => negb (Z.eqb n 0)
  | None => false
  end.

Definition get_query (object_name : string) (fields : option (list string)) (limit : option Z)
  : PyExn + string :=
  if (negb (truthy_fields fields) && negb (truthy_limit limit))%bool then
    inl (Exception "If limit is not provided, you MUST provide a list of fields")
  else
    let fields_string :=
      if truthy_fields fields then join "," (default [] fields) else "FIELDS(ALL)" in
    let limit_string :=
      if truthy_limit limit then "+LIMIT+" +:+ str_of_int (default 0 limit) else EmptyString in
    inr ("queryAll/?q=SELECT+" +:+ fields_string +:+ "+FROM+" +:+ object_name +:+ limit_string).

(** [{k: v for k, v in d.items() if k != "attributes"}] *)
Definition strip_attributes (d : JSON) : PyExn + JSON :=
  match d with
  | JObj members =>
      inr (JObj (filter (fun kv => fst kv ≠ "attributes") members))
  | _ => inl (AttributeError "items")
  end.

Fixpoint strip_all (raw_results : list JSON) : PyExn + list JSON :=
  match raw_results with
  | [] => inr []
  | d :: rest =>
      match strip_attributes d with
      | inl e => inl e
      | inr d' =>
          match strip_all rest with
          | inl e => inl e
          | inr ds => inr (d' :: ds)
          end
      end
  end.

(** [records.extend(next_records)] *)
Definition extend (records next_records : JSON) : PyExn + JSON :=
  match records with
  | JArr items =>
      match py_iter next_records with
      | inl e => inl e
      | inr more => inr (JArr (items ++ more))
      end
  | _ => inl (AttributeError "extend")
  end.

(** ** The Python library

    What the client takes from the Python library and the embedding does
    not work out is a parameter of the development: the XML parser
    [ET.fromstring] ([None] when it raises [ParseError]), [str.upper] on
    strings that are not plain ASCII, and [str()] of a list or a dict. *)
Record Library : Type := {
  ET_fromstring : string -> option Element;
  str_upper : string -> string;
  str_container : JSON -> string
}.

(** [s.upper()] *)
Definition upper (lib : Library) (s : string) : string :=
  if is_ascii s then ascii_upper s else str_upper lib s.

(** [str(v)], as an f-string renders a value. *)
Definition py_str (lib : Library) (v : JSON) : string :=
  match v with
  | JNull => "None"
  | JBool true => "True"
  | JBool false => "False"
  | JNum n => str_of_int n
  | JStr s => s
  | JArr _ => str_container lib v
  | JObj _ => str_container lib v
  end.

(** [",".join(fields)] needs every discovered name to be a [str]. *)
Fixpoint as_strings (names : list JSON) : PyExn + list string :=
  match names with
  | [] => inr []
  | JStr s :: rest =>
      match as_strings rest with
      | inl e => inl e
      | inr ss => inr (s :: ss)
      end
  | _ :: _ => inl (TypeError "sequence item: expected str instance")
  end.


(** * The world the client runs in *)

Inductive Method : Type := GET | POST.

#[global] Instance Method_eq_dec : EqDecision Method.
Proof. solve_decision. Defined.

(** What [requests.get] / [requests.post] send. *)
Record Request : Type := {
  method : Method;
  url : string;
  headers : list (string * string);
  data : option string
}.

(** What the code reads off a [requests.Response]: [status_code], [text],
    and the value of [json()] ([None] when the body does not decode). *)
Record Response : Type := {
  status_code : Z;
  text : string;
  json : option JSON
}.

(** The remote end answers a request knowing the requests sent before it. *)
Definition Server : Type := list Request -> Request -> Response.

Record World : Type := {
  environ : gmap string string;
  server : Server;
  sent : list Request;
  stdout : list string
}.

(** Computations that may change the world and may raise. *)
Definition M (A : Type) : Type := World -> (PyExn + A) * World.

Definition ret {A} (a : A) : M A := fun w => (inr a, w).
Definition raise {A} (e : PyExn) : M A := fun w => (inl e, w).
Definition bind {A B} (c : M A) (k : A -> M B) : M B :=
  fun w =>
    match c w with
    | (inl e, w') => (inl e, w')
    | (inr a, w') => k a w'
    end.
Definition lift {A} (r : PyExn + A) : M A := fun w => (r, w).

Declare Scope py_scope.
Delimit Scope py_scope with py.
Notation "x <- c ;; k" := (bind c (fun x => k))
  (at level 100, c at next level, right associativity) : py_scope.
Notation "c ;;; k" := (bind c (fun _ => k))
  (at level 100, right associativity) : py_scope.
Open Scope py_scope.

(** [os.environ[key]] *)
Definition environ_get (key : string) : M string :=
  fun w =>
    match environ w !! key with
    | Some v => (inr v, w)
    | None => (inl (KeyError key), w)
    end.

(** [print(line)] *)
Definition printed (line : string) (w : World) : World :=
  {| environ := environ w; server := server w; sent := sent w;
     stdout := stdout w ++ [line] |}.

Definition print (line : string) : M unit := fun w => (inr tt, printed line w).

(** One HTTP exchange: the request is recorded and the server's answer
    returned.  An exchange always yields a response: failures of the
    transport itself are outside the model. *)
Definition sending (rq : Request) (w : World) : World :=
  {| environ := environ w; server := server w; sent := sent w ++ [rq];
     stdout := stdout w |}.

Definition http (rq : Request) : M Response :=
  fun w => (inr (server w (sent w) rq), sending rq w).

Definition requests_post (u : string) (body : string) (hs : list (string * string))
  : M Response :=
  http {| method := POST; url := u; headers := hs; data := Some body |}.

Definition requests_get (u : string) (hs : list (string * string)) : M Response :=
  http {| method := GET; url := u; headers := hs; data := None |}.

(** [response.json()] *)
Definition response_json (response : Response) : M JSON :=
  match json response with
  | Some v => ret v
  | None => raise JSONDecodeError
  end.

(** [d[key]] on a dict of strings. *)
Definition dict_item (d : gmap string string) (key : string) : M string :=
  match d !! key with
  | Some v => ret v
  | None => raise (KeyError key)
  end.

Section Client.

Variable lib : Library.

(** * helper_functions.py *)

(** [get_credentials(integration)]: the dict display evaluates its three
    [os.environ[...]] lookups in source order. *)
Definition get_credentials (integration : string) : M (gmap string string) :=
  password <- environ_get (upper lib integration +:+ "_PASSWORD") ;;
  username <- environ_get (upper lib integration +:+ "_USERNAME") ;;
  security_token <- environ_get (upper lib integration +:+ "_SECURITY_TOKEN") ;;
  ret (<[integration +:+ "_security_token" := security_token]>
       (<[integration +:+ "_username" := username]>
        (<[integration +:+ "_password" := password]> ∅))).

(** * salesforce_authentication.py *)

Definition get_url : M string :=
  base <- environ_get "SALESFORCE_URL" ;;
  ret (base +:+ "/services/Soap/u/60.0").

Definition extract_session_id (xml_str : string) : M (option string) :=
  match ET_fromstring lib xml_str with
  | None => raise ParseError
  | Some root =>
      match find root session_id_path with
      | Some session_id_elem => ret (elem_text session_id_elem)
      | None => print "sessionId not found in the response." ;;; ret None
      end
  end.

Definition get_session_id (username password security_token : string)
  : M (option string) :=
  u <- get_url ;;
  response <- requests_post u (get_body username password security_token) get_headers ;;
  if negb (Z.eqb (status_code response) 200) then
    raise (Exception ("Authentication failed with status code "
                      +:+ str_of_int (status_code response) +:+ ": " +:+ text response))
  else
    extract_session_id (text response).

(** * salesforce_rest_api.py *)

Definition fetch_session_id : M (option string) :=
  credentials <- get_credentials "salesforce" ;;
  username <- dict_item credentials "salesforce_username" ;;
  password <- dict_item credentials "salesforce_password" ;;
  security_token <- dict_item credentials "salesforce_security_token" ;;
  get_session_id username password security_token.

(** [f"Bearer {session_id}"]: an absent session id is rendered as [None]. *)
Definition bearer (session_id : option string) : string :=
  "Bearer " +:+ default "None" session_id.

(** The line continuation inside the string literal keeps the blank before
    the backslash and the indentation of the following line. *)
Definition first_page_gap : string := " " +:+ "                ".
Definition failure_gap : string := "                        ".

(** [get_rest_query_results(query, next_url)]; [depth] bounds the recursion
    as the interpreter's recursion limit does. [JNull] is Python's [None]. *)
Fixpoint get_rest_query_results (depth : nat) (query : string) (next_url : JSON)
  : M JSON :=
  match depth with
  | O => raise RecursionError
  | S depth' =>
      u <- match next_url with
           | JNull =>
               base <- environ_get "SALESFORCE_URL" ;;
               ret (base +:+ first_page_gap +:+ "/services/data/v60.0/" +:+ query)
           | _ =>
               base <- environ_get "SALESFORCE_URL" ;;
               ret (base +:+ py_str lib next_url)
           end ;;
      session_id <- fetch_session_id ;;
      response <- requests_get u [("Authorization", bearer session_id);
                                  ("Content-Type", "application/json")] ;;
      if negb (Z.eqb (status_code response) 200) then
        raise (Exception ("REST query failed with a status of " +:+ failure_gap
                          +:+ str_of_int (status_code response) +:+ ": "
                          +:+ text response))
      else
        data <- response_json response ;;
        match data with
        | JObj members =>
            let records := default (JArr []) (dict_get "records" members) in
            match dict_get "nextRecordsUrl" members with
            | Some cursor =>
                next_records <- get_rest_query_results depth' query cursor ;;
                lift (extend records next_records)
            | None => ret records
            end
        | _ => raise (AttributeError "get")
        end
  end.

Definition get_field_names (object_name : string) : M (list JSON) :=
  base <- environ_get "SALESFORCE_URL" ;;
  session_id <- fetch_session_id ;;
  response <- requests_get
                (base +:+ "/services/data/v60.0/sobjects/" +:+ object_name +:+ "/describe/")
                [("Authorization", bearer session_id)] ;;
  if negb (Z.eqb (status_code response) 200) then
    raise (Exception ("Field name query failed with a status of "
                      +:+ str_of_int (status_code response) +:+ ": " +:+ text response))
  else
    data <- response_json response ;;
    fields <- lift (subscript_key "fields" data) ;;
    lift (get_nested_values "name" fields).

(** [get_records_list(object_name, fields, limit)], the public entry point.
    The names field discovery returns are checked to be strings where
    [get_query] joins them. *)
Definition get_records_list (depth : nat) (object_name : string)
    (fields : option (list string)) (limit : option Z) : M (list JSON) :=
  fields <- (if (negb (truthy_fields fields) && negb (truthy_limit limit))%bool then
               names <- get_field_names object_name ;;
               ss <- lift (as_strings names) ;;
               ret (Some ss)
             else ret fields) ;;
  query <- lift (get_query object_name fields limit) ;;
  raw_results <- get_rest_query_results depth query JNull ;;
  items <- lift (py_iter raw_results) ;;
  lift (strip_all items).

End Client.

(** * Vocabulary of the specification *)

(** ** XML unescaping

    The five predefined entities are read back left to right, the way a
    parser reads character data: at an ampersand the entity name that
    follows decides the character, and its letters are skipped. *)
Fixpoint starts_with (name s : string) : bool :=
  match name with
  | EmptyString => true
  | String a name' =>
      match s with
      | EmptyString => false
      | String b s' => (Ascii.eqb a b && starts_with name' s')%bool
      end
  end.

Definition entity_at (s : string) : option (ascii * nat) :=
  if starts_with "amp;" s then Some ("&"%char, 4%nat)
  else if starts_with "lt;" s then Some ("<"%char, 3%nat)
  else if starts_with "gt;" s then Some (">"%char, 3%nat)
  else if starts_with "apos;" s then Some ("'"%char, 5%nat)
  else if starts_with "quot;" s then Some (dquote, 5%nat)
  else None.

Fixpoint unescape_from (skip : nat) (s : string) : string :=
  match s with
  | EmptyString => EmptyString
  | String c rest =>
      match skip with
      | S k => unescape_from k rest
      | O =>
          if Ascii.eqb c "&" then
            match entity_at rest with
            | Some (ch, len) => String ch (unescape_from len rest)
            | None => String c (unescape_from 0 rest)
            end
          else String c (unescape_from 0 rest)
      end
  end.

Definition xml_unescape (s : string) : string := unescape_from 0 s.

(** What [escape_chars] writes for one character. *)
Definition escape_char (c : ascii) : string :=
  if Ascii.eqb c "&" then "&amp;"
  else if Ascii.eqb c ">" then "&gt;"
  else if Ascii.eqb c "<" then "&lt;"
  else if Ascii.eqb c "'" then "&apos;"
  else if Ascii.eqb c dquote then "&quot;"
  else str1 c.

Fixpoint escape_each (s : string) : string :=
  match s with
  | EmptyString => EmptyString
  | String c rest => escape_char c +:+ escape_each rest
  end.

(** A character that needs no escaping inside or outside attribute values
    (the ampersand is looked at separately). *)
Definition plain (c : ascii) : bool :=
  negb (Ascii.eqb c "<" || Ascii.eqb c ">" || Ascii.eqb c "'" || Ascii.eqb c dquote).

(** The error of the query builder. *)
Definition invalid_query : PyExn :=
  Exception "If limit is not provided, you MUST provide a list of fields".

(** ** The session-id node as the specification places it

    [Envelope/Body/loginResponse/result/sessionId], read from the document
    element down. *)
Definition find_from_envelope (root : Element) : option Element :=
  if decide (elem_tag root = clark soapenv "Envelope") then
    find root [ Self; Child (clark soapenv "Body"); Child (clark ns "loginResponse");
                Child (clark ns "result"); Child (clark ns "sessionId") ]
  else None.

(** ** Requests and responses of a conversation *)

Definition login_request (base username password security_token : string) : Request :=
  {| method := POST; url := base +:+ "/services/Soap/u/60.0"; headers := get_headers;
     data := Some (get_body username password security_token) |}.

Definition query_request (target : string) (session_id : option string) : Request :=
  {| method := GET; url := target;
     headers := [("Authorization", bearer session_id); ("Content-Type", "application/json")];
     data := None |}.

(** The header a request carries under a name. *)
Fixpoint header (name : string) (hs : list (string * string)) : option string :=
  match hs with
  | [] => None
  | (k, v) :: rest => if String.eqb k name then Some v else header name rest
  end.

(** The session id a login response carries, if any. *)
Definition session_of (lib : Library) (r : Response)
  : option string :=
  match ET_fromstring lib (text r) with
  | Some root =>
      match find root session_id_path with
      | Some e => elem_text e
      | None => None
      end
  | None => None
  end.

(** A login response the client accepts: success status, well-formed XML. *)
Definition login_ok (lib : Library) (r : Response) : Prop :=
  status_code r = 200 /\ is_Some (ET_fromstring lib (text r)).

(** A page: success status and a JSON object whose [records] member, when
    there is one, is the list [records], and whose continuation cursor is
    [cursor]. *)
Definition page_of (r : Response) (records : list JSON) (cursor : option string) : Prop :=
  status_code r = 200 /\
  exists members,
    json r = Some (JObj members) /\
    (dict_get "records" members = Some (JArr records)
     \/ (dict_get "records" members = None /\ records = [])) /\
    dict_get "nextRecordsUrl" members = JStr <$> cursor.

(** [paginates srv ... h target pages h']: starting with history [h], the
    server answers the login and the GET at [target] with the first page of
    [pages], each cursor leads to the next page, the last page has no
    cursor, and [h'] is the history when the last page has been served. *)
Inductive paginates (lib : Library) (srv : Server)
    (base username password security_token : string)
  : list Request -> string -> list (list JSON) -> list Request -> Prop :=
| paginates_last (h : list Request) (target : string) (records : list JSON) :
    login_ok lib (srv h (login_request base username password security_token)) ->
    page_of
      (srv (h ++ [login_request base username password security_token])%list
           (query_request target
              (session_of lib
                 (srv h (login_request base username password security_token)))))
      records None ->
    paginates lib srv base username password security_token h target [records]
      (h ++ [login_request base username password security_token;
             query_request target
               (session_of lib
                  (srv h (login_request base username password security_token)))])%list
| paginates_more (h : list Request) (target : string) (records : list JSON)
    (cursor : string) (pages : list (list JSON)) (h' : list Request) :
    login_ok lib (srv h (login_request base username password security_token)) ->
    page_of
      (srv (h ++ [login_request base username password security_token])%list
           (query_request target
              (session_of lib
                 (srv h (login_request base username password security_token)))))
      records (Some cursor) ->
    paginates lib srv base username password security_token
      (h ++ [login_request base username password security_token;
             query_request target
               (session_of lib
                  (srv h (login_request base username password security_token)))])%list
      (base +:+ cursor) pages h' ->
    paginates lib srv base username password security_token h target
      (records :: pages) h'.

(** The configuration the client needs. *)
Definition configured (w : World) (base username password security_token : string)
  : Prop :=
  environ w !! "SALESFORCE_URL" = Some base /\
  environ w !! "SALESFORCE_USERNAME" = Some username /\
  environ w !! "SALESFORCE_PASSWORD" = Some password /\
  environ w !! "SALESFORCE_SECURITY_TOKEN" = Some security_token.

(** ** HTTP failures *)

Definition failure_message (prefix : string) (r : Response) : string :=
  prefix +:+ str_of_int (status_code r) +:+ ": " +:+ text r.

Definition authentication_failed : string := "Authentication failed with status code ".
Definition query_failed : string := "REST query failed with a status of " +:+ failure_gap.
Definition describe_failed : string := "Field name query failed with a status of ".

(** The failures an operation may report for a request of a given method. *)
Definition failures_for (get_failures : list string) (rq : Request) : list string :=
  match method rq with
  | POST => [authentication_failed]
  | GET => get_failures
  end.

(** [aborts_on_failure gf w out]: in the run from [w] to [out], a request
    answered with a status other than 200 is the last request sent, and the
    run ends in the exception that carries the status and the body of that
    answer. *)
Definition aborts_on_failure {A} (get_failures : list string) (w : World)
    (out : (PyExn + A) * World) : Prop :=
  environ out.2 = environ w /\ server out.2 = server w /\
  exists new, sent out.2 = sent w ++ new /\
    forall pre rq post, new = pre ++ rq :: post ->
      status_code (server w (sent w ++ pre) rq) <> 200 ->
      post = [] /\
      exists prefix, prefix ∈ failures_for get_failures rq /\
        out.1 = inl (Exception (failure_message prefix (server w (sent w ++ pre) rq))).

(** An operation aborts on failure when every run of it does. *)
Definition aborting {A} (get_failures : list string) (c : M A) : Prop :=
  forall w, aborts_on_failure get_failures w (c w).

(** The number of logins among the requests of a history. *)
Definition logins (rs : list Request) : nat :=
  length (filter (fun rq => method rq = POST) rs).

(** The target of the first request of a query. *)
Definition first_page_url (base query : string) : string :=
  base +:+ first_page_gap +:+ "/services/data/v60.0/" +:+ query.

Definition session_id_warning : string := "sessionId not found in the response.".

(** ** Further vocabulary *)

(** One of the five characters [escape_chars] rewrites. *)
Definition special (c : ascii) : bool :=
  (Ascii.eqb c "&" || Ascii.eqb c ">" || Ascii.eqb c "<" || Ascii.eqb c "'"
   || Ascii.eqb c dquote)%bool.

(** A record without its [attributes] member. *)
Definition without_attributes (members : list (string * JSON)) : list (string * JSON) :=
  filter (fun kv => fst kv <> "attributes") members.

(** [reaches root e]: [e] is a sessionId child of a result child of a
    loginResponse child of a Body element that lies somewhere below
    [root]. *)
Definition reaches (root e : Element) : Prop :=
  exists body response result,
    body ∈ flat_map elem_iter (elem_children root)
    /\ elem_tag body = clark soapenv "Body"
    /\ response ∈ elem_children body /\ elem_tag response = clark ns "loginResponse"
    /\ result ∈ elem_children response /\ elem_tag result = clark ns "result"
    /\ e ∈ elem_children result /\ elem_tag e = clark ns "sessionId".

(** The target of the describe request. *)
Definition describe_url (base object_name : string) : string :=
  base +:+ "/services/data/v60.0/sobjects/" +:+ object_name +:+ "/describe/".

(** An operation that prints nothing but the session-id warning. *)
Definition warns_only {A} (c : M A) : Prop :=
  forall w, exists n, stdout (c w).2 = stdout w ++ replicate n session_id_warning.

(** The target of the request for a page: the first page of the query
    without a cursor, the base URL followed by the cursor with one. *)
Definition page_target (lib : Library) (base query : string) (next_url : JSON) : string :=
  match next_url with
  | JNull => first_page_url base query
  | _ => base +:+ py_str lib next_url
  end.

(** The world after the login and the GET of a page at [target]. *)
Definition page_world (lib : Library) (target : string)
    (w : World) : World :=
  match fetch_session_id lib w with
  | (inr session_id, w1) => sending (query_request target session_id) w1
  | (inl _, w1) => w1
  end.

(** The describe request, and the world after the login and that request. *)
Definition describe_request (base object_name : string) (session_id : option string)
  : Request :=
  {| method := GET; url := describe_url base object_name;
     headers := [("Authorization", bearer session_id)]; data := None |}.

Definition describe_world (lib : Library)
    (base object_name : string) (w : World) : World :=
  match fetch_session_id lib w with
  | (inr session_id, w1) => sending (describe_request base object_name session_id) w1
  | (inl _, w1) => w1
  end.

(** An operation all of whose requests go to the base URL followed by
    something, and which leaves the configuration as it was. *)
Definition stays_on (base : string) {A} (c : M A) : Prop :=
  forall w, environ w !! "SALESFORCE_URL" = Some base ->
    environ (c w).2 = environ w
    /\ exists new, sent (c w).2 = sent w ++ new
         /\ Forall (fun rq => exists suffix, url rq = base +:+ suffix) new.

(** The four configuration keys, in the order the client reads them. *)
Definition configuration_keys : list string :=
  ["SALESFORCE_URL"; "SALESFORCE_PASSWORD"; "SALESFORCE_USERNAME";
   "SALESFORCE_SECURITY_TOKEN"].

(** * Concrete worlds

    The XML parser is a parameter of the client.  The examples run with
    [demo_fromstring], which knows the documents written out below and
    rejects every other string. *)

Definition demo_base : string := "https://example.my.salesforce.com".

Definition demo_environ : gmap string string :=
  <["SALESFORCE_URL" := demo_base]>
  (<["SALESFORCE_USERNAME" := "user@example.com"]>
   (<["SALESFORCE_PASSWORD" := "p<ss"]>
    (<["SALESFORCE_SECURITY_TOKEN" := "t&k"]> ∅))).

Definition envelope_open : string :=
  "<soapenv:Envelope xmlns:soapenv='http://schemas.xmlsoap.org/soap/envelope/'"
  +:+ " xmlns='urn:partner.soap.sforce.com'><soapenv:Body><loginResponse><result>".
Definition envelope_close : string :=
  "</result></loginResponse></soapenv:Body></soapenv:Envelope>".

(** A login response with a session id, and its element tree. *)
Definition login_document (session_id : string) : string :=
  envelope_open +:+ "<sessionId>" +:+ session_id +:+ "</sessionId>" +:+ envelope_close.

Definition login_tree (session_id : string) : Element :=
  Elem (clark soapenv "Envelope") None
    [Elem (clark soapenv "Body") None
       [Elem (clark ns "loginResponse") None
          [Elem (clark ns "result") None
             [Elem (clark ns "sessionId") (Some session_id) []]]]].

(** A login response whose result has no session id. *)
Definition unsigned_document : string :=
  envelope_open +:+ "<userId>005</userId>" +:+ envelope_close.

Definition unsigned_tree : Element :=
  Elem (clark soapenv "Envelope") None
    [Elem (clark soapenv "Body") None
       [Elem (clark ns "loginResponse") None
          [Elem (clark ns "result") None
             [Elem (clark ns "userId") (Some "005") []]]]].

(** A document with no Envelope element: the Body sits under a [wrapper]
    element of a [reply] document element. *)
Definition stray_document : string :=
  "<reply><wrapper><soapenv:Body xmlns:soapenv='http://schemas.xmlsoap.org/soap/envelope/'"
  +:+ " xmlns='urn:partner.soap.sforce.com'><loginResponse><result>"
  +:+ "<sessionId>S9</sessionId>"
  +:+ "</result></loginResponse></soapenv:Body></wrapper></reply>".

Definition stray_tree : Element :=
  Elem "reply" None
    [Elem "wrapper" None
       [Elem (clark soapenv "Body") None
          [Elem (clark ns "loginResponse") None
             [Elem (clark ns "result") None
                [Elem (clark ns "sessionId") (Some "S9") []]]]]].

Definition demo_fromstring (xml_str : string) : option Element :=
  if String.eqb xml_str (login_document "S1") then Some (login_tree "S1")
  else if String.eqb xml_str (login_document "S2") then Some (login_tree "S2")
  else if String.eqb xml_str unsigned_document then Some unsigned_tree
  else if String.eqb xml_str stray_document then Some stray_tree
  else None.

(** The text of a JSON value whose strings need no escapes. *)
Fixpoint dumps (v : JSON) : string :=
  match v with
  | JNull => "null"
  | JBool true => "true"
  | JBool false => "false"
  | JNum n => str_of_int n
  | JStr s => str1 dquote +:+ s +:+ str1 dquote
  | JArr items => "[" +:+ join ", " (map dumps items) +:+ "]"
  | JObj members =>
      "{" +:+ join ", " (map (fun '(k, v) => str1 dquote +:+ k +:+ str1 dquote
                                             +:+ ": " +:+ dumps v) members) +:+ "}"
  end.

(** The library of the examples: the table above for the parser.  The
    examples use ASCII names and string cursors only, so [str.upper] beyond
    ASCII and [str()] of containers are never consulted; they are filled in
    with the ASCII upper-casing and the JSON text. *)
Definition demo_library : Library :=
  {| ET_fromstring := demo_fromstring; str_upper := ascii_upper; str_container := dumps |}.

Definition ok_json (v : JSON) : Response :=
  {| status_code := 200; text := dumps v; json := Some v |}.

Definition ok_login (session_id : string) : Response :=
  {| status_code := 200; text := login_document session_id; json := None |}.

Definition account_members (id name : string) : list (string * JSON) :=
  [("attributes", JObj [("type", JStr "Account")]); ("Id", JStr id); ("Name", JStr name)].

Definition account (id name : string) : JSON := JObj (account_members id name).

Definition clean_account (id name : string) : JSON :=
  JObj [("Id", JStr id); ("Name", JStr name)].

Definition record_A : JSON := account "001A" "Acme".
Definition record_B : JSON := account "001B" "Bolt".
Definition record_C : JSON := account "001C" "Cask".

Definition page_1 : Response :=
  ok_json (JObj [("totalSize", JNum 3); ("done", JBool false);
                 ("nextRecordsUrl", JStr "/cursor2"); ("records", JArr [record_A; record_B])]).

Definition page_2 : Response :=
  ok_json (JObj [("totalSize", JNum 3); ("done", JBool true); ("records", JArr [record_C])]).

(** Page 2 is served at the cursor, page 1 at every other URL. *)
Definition serve_pages (rq : Request) : Response :=
  if String.eqb (url rq) (demo_base +:+ "/cursor2") then page_2 else page_1.

Definition paged_server : Server :=
  fun h rq =>
    match method rq with
    | POST => ok_login "S1"
    | GET => serve_pages rq
    end.

(** A server that issues a new session id at every login. *)
Definition rotating_server : Server :=
  fun h rq =>
    match method rq with
    | POST => if h is [] then ok_login "S1" else ok_login "S2"
    | GET => serve_pages rq
    end.

(** A server whose second page fails. *)
Definition failing_server : Server :=
  fun h rq =>
    match method rq with
    | POST => ok_login "S1"
    | GET =>
        if String.eqb (url rq) (demo_base +:+ "/cursor2")
        then {| status_code := 500; text := "boom"; json := None |}
        else page_1
    end.

(** A server whose login answer has no session id and which refuses
    requests without one. *)
Definition anonymous_server : Server :=
  fun h rq =>
    match method rq with
    | POST => {| status_code := 200; text := unsigned_document; json := None |}
    | GET => {| status_code := 401; text := "INVALID_SESSION_ID"; json := None |}
    end.

(** A server whose describe answer names two fields. *)
Definition describing_server : Server :=
  fun h rq =>
    match method rq with
    | POST => ok_login "S1"
    | GET =>
        if String.eqb (url rq) (demo_base +:+ "/services/data/v60.0/sobjects/Account/describe/")
        then ok_json (JObj [("fields", JArr [JObj [("name", JStr "Id")];
                                             JObj [("name", JStr "Name")]])])
        else page_2
    end.

Definition demo_world (srv : Server) : World :=
  {| environ := demo_environ; server := srv; sent := []; stdout := [] |}.

Definition demo_query : string := "queryAll/?q=SELECT+Id,Name+FROM+Account".

Definition demo_login : Request :=
  login_request demo_base "user@example.com" "p<ss" "t&k".

(** The [Authorization] header of the request at a position of a history. *)
Definition authorization_at (i : nat) (h : list Request) : option string :=
  match h !! i with
  | Some rq => header "Authorization" (headers rq)
  | None => None
  end.

(** A server that refuses the login. *)
Definition rejecting_server : Server :=
  fun h rq =>
    match method rq with
    | POST => {| status_code := 401; text := "INVALID_LOGIN"; json := None |}
    | GET => page_2
    end.

(** A server whose login answer is not XML. *)
Definition garbled_server : Server :=
  fun h rq =>
    match method rq with
    | POST => {| status_code := 200; text := "<html>Service Unavailable"; json := None |}
    | GET => page_2
    end.

(** A server whose first page carries a null cursor. *)
Definition null_cursor_server : Server :=
  fun h rq =>
    match method rq with
    | POST => ok_login "S1"
    | GET =>
        if h is [_]
        then ok_json (JObj [("nextRecordsUrl", JNull); ("records", JArr [record_A])])
        else page_2
    end.

(** A server whose describe answer names no field. *)
Definition fieldless_server : Server :=
  fun h rq =>
    match method rq with
    | POST => ok_login "S1"
    | GET => ok_json (JObj [("fields", JArr [])])
    end.

(** A server whose pages are not JSON. *)
Definition html_server : Server :=
  fun h rq =>
    match method rq with
    | POST => ok_login "S1"
    | GET => {| status_code := 200; text := "<html>maintenance</html>"; json := None |}
    end.

(** A world in which the security token is not configured. *)
Definition tokenless_world : World :=
  {| environ := delete "SALESFORCE_SECURITY_TOKEN" demo_environ; server := paged_server;
     sent := []; stdout := [] |}.

(** * Facts about the pure functions *)

Example str_of_int_10 : str_of_int 10 = "10".
Proof. reflexivity. Qed.

Example str_of_int_negative : str_of_int (-5) = "-5".
Proof. reflexivity. Qed.

Example upper_salesforce (lib : Library) : upper lib "salesforce" = "SALESFORCE".
Proof. reflexivity. Qed.

Example escape_chars_demo : escape_chars "a<b&c'd" = "a&lt;b&amp;c&apos;d".
Proof. reflexivity. Qed.

Example run_paged :
  (get_records_list demo_library 5 "Account" (Some ["Id"; "Name"]) None
     (demo_world paged_server)).1
  = inr [clean_account "001A" "Acme"; clean_account "001B" "Bolt"; clean_account "001C" "Cask"].
Proof. vm_compute. reflexivity. Qed.

Lemma append_cons (c : ascii) (a b : string) : String c a +:+ b = String c (a +:+ b).
Proof. reflexivity. Qed.

Lemma append_nil_r (s : string) : s +:+ EmptyString = s.
Proof.
  induction s as [|c s IH]; [reflexivity|].
  now rewrite append_cons, IH.
Qed.

Lemma append_assoc (a b c : string) : (a +:+ b) +:+ c = a +:+ (b +:+ c).
Proof.
  induction a as [|x a IH]; [reflexivity|].
  now rewrite !append_cons, IH.
Qed.

Lemma append_inv_head (a x y : string) : a +:+ x = a +:+ y -> x = y.
Proof.
  induction a as [|c a IH]; intros H; [assumption|].
  rewrite !append_cons in H. injection H. auto.
Qed.

Lemma chars_append (a b : string) :
  list_ascii_of_string (a +:+ b) = list_ascii_of_string a ++ list_ascii_of_string b.
Proof.
  induction a as [|c a IH]; [reflexivity|].
  rewrite append_cons. simpl. now rewrite IH.
Qed.

(** ** The query builder *)

Lemma truthy_fields_false (fields : option (list string)) :
  truthy_fields fields = false <-> fields = None \/ fields = Some [].
Proof.
  destruct fields as [[|f fs]|]; simpl; split; intros H; auto; try discriminate.
  destruct H as [H|H]; discriminate.
Qed.

Lemma truthy_limit_false (limit : option Z) :
  truthy_limit limit = false <-> limit = None \/ limit = Some 0.
Proof.
  destruct limit as [n|]; simpl; [|tauto].
  destruct (Z.eqb_spec n 0) as [->|Hn]; simpl; split; intros H; auto; try discriminate.
  destruct H as [H|H]; [discriminate | congruence].
Qed.

Lemma get_query_raises (object_name : string) (fields : option (list string))
    (limit : option Z) :
  truthy_fields fields = false -> truthy_limit limit = false ->
  get_query object_name fields limit = inl invalid_query.
Proof. intros Hf Hl. unfold get_query. now rewrite Hf, Hl. Qed.

Lemma get_query_returns (object_name : string) (fields : option (list string))
    (limit : option Z) :
  (truthy_fields fields || truthy_limit limit)%bool = true ->
  get_query object_name fields limit
  = inr ("queryAll/?q=SELECT+"
         +:+ (if truthy_fields fields then join "," (default [] fields) else "FIELDS(ALL)")
         +:+ "+FROM+" +:+ object_name
         +:+ (if truthy_limit limit then "+LIMIT+" +:+ str_of_int (default 0 limit)
              else EmptyString)).
Proof.
  intros H. unfold get_query.
  destruct (truthy_fields fields), (truthy_limit limit); simpl in *;
    try reflexivity; discriminate.
Qed.

(** C2 (as amended): with a non-empty field list and a non-zero limit the
    builder returns [queryAll/?q=SELECT+<comma-joined fields>+FROM+<object>+LIMIT+<limit>];
    without fields it writes [FIELDS(ALL)] as the field clause; without a
    limit no LIMIT clause is written; and the example of the specification
    evaluates as stated. *)
Theorem get_query_shape (object_name : string) (fields : list string) (limit : Z) :
  fields <> [] -> limit <> 0 ->
  get_query object_name (Some fields) (Some limit)
  = inr ("queryAll/?q=SELECT+" +:+ join "," fields +:+ "+FROM+" +:+ object_name
         +:+ "+LIMIT+" +:+ str_of_int limit)
  /\ get_query object_name None (Some limit)
     = inr ("queryAll/?q=SELECT+FIELDS(ALL)+FROM+" +:+ object_name
            +:+ "+LIMIT+" +:+ str_of_int limit)
  /\ get_query object_name (Some fields) None
     = inr ("queryAll/?q=SELECT+" +:+ join "," fields +:+ "+FROM+" +:+ object_name)
  /\ get_query "Account" (Some ["Id"; "Name"]) (Some 10)
     = inr "queryAll/?q=SELECT+Id,Name+FROM+Account+LIMIT+10".
Proof.
  intros Hf Hl.
  assert (Htl : truthy_limit (Some limit) = true).
  { simpl. destruct (Z.eqb_spec limit 0); [contradiction | reflexivity]. }
  assert (Htf : truthy_fields (Some fields) = true).
  { destruct fields; [contradiction | reflexivity]. }
  repeat split.
  - rewrite get_query_returns by (rewrite Htf; reflexivity). now rewrite Htf, Htl.
  - rewrite get_query_returns by (rewrite Htl; reflexivity). now rewrite Htl.
  - rewrite get_query_returns by (rewrite Htf; reflexivity). rewrite Htf. simpl.
    now rewrite append_nil_r.
Qed.

Lemma get_query_shape_witness :
  get_query "Contact" (Some ["Id"; "Email"]) (Some 25)
  = inr ("queryAll/?q=SELECT+" +:+ join "," ["Id"; "Email"] +:+ "+FROM+" +:+ "Contact"
         +:+ "+LIMIT+" +:+ str_of_int 25).
Proof.
  apply (get_query_shape "Contact" ["Id"; "Email"] 25); [discriminate | lia].
Defined.

(** C2, as stated, fails for the provided limit 0: no LIMIT clause is
    written. *)
Lemma get_query_limit_zero :
  get_query "Account" (Some ["Id"]) (Some 0) = inr "queryAll/?q=SELECT+Id+FROM+Account"
  /\ get_query "Account" (Some ["Id"]) (Some 0)
     <> inr ("queryAll/?q=SELECT+" +:+ join "," ["Id"] +:+ "+FROM+" +:+ "Account"
             +:+ "+LIMIT+" +:+ str_of_int 0).
Proof. split; [reflexivity | discriminate]. Qed.

(** C6 (as amended): the builder raises its invalid-parameters error exactly
    when [fields] is absent or empty and [limit] is absent or zero; in every
    other case it returns a query string. *)
Theorem get_query_raises_iff (object_name : string) (fields : option (list string))
    (limit : option Z) :
  (get_query object_name fields limit = inl invalid_query
   <-> (fields = None \/ fields = Some []) /\ (limit = None \/ limit = Some 0))
  /\ ((exists q, get_query object_name fields limit = inr q)
      <-> ~ ((fields = None \/ fields = Some []) /\ (limit = None \/ limit = Some 0)))
  /\ get_query "Account" None None = inl invalid_query.
Proof.
  rewrite <- truthy_fields_false, <- truthy_limit_false.
  split; [|split; [|reflexivity]].
  - split.
    + intros H. unfold get_query in H.
      destruct (truthy_fields fields), (truthy_limit limit); simpl in H;
        first [discriminate | split; reflexivity].
    + intros [Hf Hl]. now apply get_query_raises.
  - split.
    + intros [q Hq] [Hf Hl]. rewrite get_query_raises in Hq by assumption. discriminate.
    + intros H. unfold get_query.
      destruct (truthy_fields fields), (truthy_limit limit); simpl;
        first [eexists; reflexivity | exfalso; apply H; split; reflexivity].
Qed.

(** C6, as stated, fails when [fields] is supplied but empty: the builder
    raises although an argument was supplied. *)
Lemma get_query_empty_fields_raises :
  get_query "Account" (Some []) None = inl invalid_query
  /\ ~ (exists q, get_query "Account" (Some []) None = inr q).
Proof. split; [reflexivity | intros [q Hq]; discriminate]. Qed.

(** ** Escaping *)

Lemma replace_append (c : ascii) (new a b : string) :
  replace c new (a +:+ b) = replace c new a +:+ replace c new b.
Proof.
  induction a as [|x a IH]; [reflexivity|].
  rewrite append_cons. simpl. rewrite IH.
  destruct (Ascii.eqb x c); [now rewrite append_assoc | now rewrite append_cons].
Qed.

Lemma escape_chars_append (a b : string) :
  escape_chars (a +:+ b) = escape_chars a +:+ escape_chars b.
Proof. unfold escape_chars, escape. simpl. now rewrite !replace_append. Qed.

Lemma escape_chars_single (c : ascii) : escape_chars (str1 c) = escape_char c.
Proof. destruct c as [[] [] [] [] [] [] [] []]; reflexivity. Qed.

Lemma escape_chars_each (s : string) : escape_chars s = escape_each s.
Proof.
  induction s as [|c s IH]; [reflexivity|].
  change (String c s) with (str1 c +:+ s).
  rewrite escape_chars_append, escape_chars_single, IH. reflexivity.
Qed.

Lemma unescape_escape_char (c : ascii) (rest : string) :
  unescape_from 0 (escape_char c +:+ rest) = String c (unescape_from 0 rest).
Proof. destruct c as [[] [] [] [] [] [] [] []]; reflexivity. Qed.

Lemma escape_char_plain (c : ascii) :
  forallb plain (list_ascii_of_string (escape_char c)) = true.
Proof. destruct c as [[] [] [] [] [] [] [] []]; reflexivity. Qed.

Lemma escape_each_plain (s : string) :
  forallb plain (list_ascii_of_string (escape_each s)) = true.
Proof.
  induction s as [|c s IH]; [reflexivity|].
  simpl. rewrite chars_append, forallb_app, escape_char_plain, IH. reflexivity.
Qed.

(** C8: unescaping the output of [escape_chars] gives the input back; the
    output is the input with each of the five characters replaced by its
    entity, so none of [<], [>], ['] and the double quote is left in it. *)
Theorem escape_chars_roundtrip (s : string) :
  xml_unescape (escape_chars s) = s
  /\ escape_chars s = escape_each s
  /\ (forall c, In c (list_ascii_of_string (escape_chars s)) ->
        c <> "<"%char /\ c <> ">"%char /\ c <> "'"%char /\ c <> dquote).
Proof.
  split; [|split].
  - rewrite escape_chars_each. unfold xml_unescape.
    induction s as [|c s IH]; [reflexivity|].
    simpl. now rewrite unescape_escape_char, IH.
  - apply escape_chars_each.
  - intros c Hc. rewrite escape_chars_each in Hc.
    pose proof (escape_each_plain s) as Hp.
    rewrite forallb_forall in Hp. specialize (Hp c Hc).
    unfold plain in Hp. apply negb_true_iff in Hp.
    repeat (apply orb_false_iff in Hp; destruct Hp as [Hp ?]).
    repeat split; intros ->; discriminate.
Qed.

Lemma escape_chars_roundtrip_witness :
  xml_unescape (escape_chars "<a href='x'>&amp;</a>") = "<a href='x'>&amp;</a>".
Proof. exact (proj1 (escape_chars_roundtrip "<a href='x'>&amp;</a>")). Defined.

Example escape_chars_five :
  escape_chars "<" = "&lt;" /\ escape_chars ">" = "&gt;" /\ escape_chars "&" = "&amp;"
  /\ escape_chars "'" = "&apos;" /\ escape_chars (str1 dquote) = "&quot;".
Proof. repeat split. Qed.

(** * Running the client *)

Lemma bind_inr {A B} (c : M A) (k : A -> M B) (w w' : World) (a : A) :
  c w = (inr a, w') -> bind c k w = k a w'.
Proof. intros H. unfold bind. now rewrite H. Qed.

Lemma environ_get_some (key v : string) (w : World) :
  environ w !! key = Some v -> environ_get key w = (inr v, w).
Proof. intros H. unfold environ_get. now rewrite H. Qed.

Lemma suffix_neq (a x y : string) : x <> y -> a +:+ x <> a +:+ y.
Proof. intros Hxy H. apply Hxy. eapply append_inv_head, H. Qed.

(** The mapping [get_credentials] builds has its three entries. *)
Lemma credentials_lookup (integration username password security_token : string) :
  let credentials : gmap string string :=
    <[integration +:+ "_security_token" := security_token]>
      (<[integration +:+ "_username" := username]>
        (<[integration +:+ "_password" := password]> ∅)) in
  credentials !! (integration +:+ "_username") = Some username
  /\ credentials !! (integration +:+ "_password") = Some password
  /\ credentials !! (integration +:+ "_security_token") = Some security_token.
Proof.
  cbv zeta. repeat split.
  - rewrite lookup_insert_ne by (apply suffix_neq; discriminate).
    apply lookup_insert_eq.
  - rewrite !lookup_insert_ne by (apply suffix_neq; discriminate).
    apply lookup_insert_eq.
  - apply lookup_insert_eq.
Qed.

(** C9: with the three configuration keys present, [get_credentials]
    returns a mapping that holds the username, the password and the security
    token; with one of them absent it raises [KeyError] for an absent key;
    in both cases the world is left as it was. *)
Theorem get_credentials_spec (lib : Library) (integration : string) (w : World) :
  (get_credentials lib integration w).2 = w
  /\ (forall username password security_token,
        environ w !! (upper lib integration +:+ "_USERNAME") = Some username ->
        environ w !! (upper lib integration +:+ "_PASSWORD") = Some password ->
        environ w !! (upper lib integration +:+ "_SECURITY_TOKEN") = Some security_token ->
        exists credentials : gmap string string,
          (get_credentials lib integration w).1 = inr credentials
          /\ credentials !! (integration +:+ "_username") = Some username
          /\ credentials !! (integration +:+ "_password") = Some password
          /\ credentials !! (integration +:+ "_security_token") = Some security_token)
  /\ (environ w !! (upper lib integration +:+ "_USERNAME") = None
      \/ environ w !! (upper lib integration +:+ "_PASSWORD") = None
      \/ environ w !! (upper lib integration +:+ "_SECURITY_TOKEN") = None ->
      exists key,
        (get_credentials lib integration w).1 = inl (KeyError key)
        /\ environ w !! key = None
        /\ key ∈ [upper lib integration +:+ "_USERNAME"; upper lib integration +:+ "_PASSWORD";
                  upper lib integration +:+ "_SECURITY_TOKEN"]).
Proof.
  unfold get_credentials, bind, environ_get, ret.
  destruct (environ w !! (upper lib integration +:+ "_PASSWORD")) as [pw|] eqn:Hp;
  destruct (environ w !! (upper lib integration +:+ "_USERNAME")) as [us|] eqn:Hu;
  destruct (environ w !! (upper lib integration +:+ "_SECURITY_TOKEN")) as [tk|] eqn:Ht;
    simpl; (split; [reflexivity|]); split;
    try (intros ? ? ? ? ? ?; discriminate).
  1: { intros ? ? ? [= <-] [= <-] [= <-]. eexists. split; [reflexivity|].
       apply credentials_lookup. }
  1: { intros [H|[H|H]]; discriminate. }
  all: intros _; eexists; (split; [reflexivity|]); (split; [eassumption|]);
    set_solver.
Qed.

Lemma get_credentials_spec_witness :
  exists credentials : gmap string string,
    (get_credentials demo_library "salesforce" (demo_world paged_server)).1 = inr credentials
    /\ credentials !! "salesforce_username" = Some "user@example.com"
    /\ credentials !! "salesforce_password" = Some "p<ss"
    /\ credentials !! "salesforce_security_token" = Some "t&k".
Proof.
  exact (proj1 (proj2 (get_credentials_spec demo_library "salesforce" (demo_world paged_server)))
           "user@example.com" "p<ss" "t&k" eq_refl eq_refl eq_refl).
Defined.

Section ClientFacts.

Variable lib : Library.

Variables base username password security_token : string.

Lemma configured_same (w w' : World) :
  environ w' = environ w ->
  configured w base username password security_token ->
  configured w' base username password security_token.
Proof. unfold configured. intros ->. auto. Qed.

Lemma extract_session_id_run (xml_str : string) (w : World) :
  extract_session_id lib xml_str w
  = match ET_fromstring lib xml_str with
    | None => (inl ParseError, w)
    | Some root =>
        match find root session_id_path with
        | Some e => (inr (elem_text e), w)
        | None => (inr None, printed session_id_warning w)
        end
    end.
Proof.
  unfold extract_session_id.
  destruct (ET_fromstring lib xml_str) as [root|]; [|reflexivity].
  destruct (find root session_id_path); reflexivity.
Qed.

Lemma get_session_id_run (w : World) :
  configured w base username password security_token ->
  get_session_id lib username password security_token w
  = let rq := login_request base username password security_token in
    let response := server w (sent w) rq in
    if negb (Z.eqb (status_code response) 200) then
      (inl (Exception (failure_message authentication_failed response)), sending rq w)
    else extract_session_id lib (text response) (sending rq w).
Proof.
  intros (Hb & _). unfold get_session_id, get_url.
  unfold bind at 1. unfold bind at 1.
  rewrite (environ_get_some _ _ _ Hb). unfold ret at 1.
  unfold bind, requests_post, http. cbv zeta.
  fold (login_request base username password security_token).
  destruct (negb _); reflexivity.
Qed.

Lemma fetch_session_id_run (w : World) :
  configured w base username password security_token ->
  fetch_session_id lib w
  = get_session_id lib username password security_token w.
Proof.
  intros (Hb & Hu & Hp & Ht). unfold fetch_session_id, get_credentials.
  change (upper lib "salesforce" +:+ "_PASSWORD") with "SALESFORCE_PASSWORD".
  change (upper lib "salesforce" +:+ "_USERNAME") with "SALESFORCE_USERNAME".
  change (upper lib "salesforce" +:+ "_SECURITY_TOKEN") with "SALESFORCE_SECURITY_TOKEN".
  unfold bind. rewrite (environ_get_some _ _ _ Hp), (environ_get_some _ _ _ Hu),
    (environ_get_some _ _ _ Ht).
  unfold ret, dict_item.
  destruct (credentials_lookup "salesforce" username password security_token)
    as (Lu & Lp & Lt).
  cbv zeta in Lu, Lp, Lt.
  change ("salesforce" +:+ "_username") with "salesforce_username" in *.
  change ("salesforce" +:+ "_password") with "salesforce_password" in *.
  change ("salesforce" +:+ "_security_token") with "salesforce_security_token" in *.
  rewrite Lu. unfold ret. rewrite Lp. rewrite Lt. reflexivity.
Qed.

(** A login that succeeds: the session id of the answer is returned and
    the login request is the one request sent. *)
Lemma login_run (w : World) :
  configured w base username password security_token ->
  login_ok lib
    (server w (sent w) (login_request base username password security_token)) ->
  exists w1,
    fetch_session_id lib w
    = (inr (session_of lib
              (server w (sent w) (login_request base username password security_token))),
       w1)
    /\ sent w1 = sent w ++ [login_request base username password security_token]
    /\ environ w1 = environ w /\ server w1 = server w.
Proof.
  intros Hc (Hs & root & Hroot).
  rewrite (fetch_session_id_run w Hc), (get_session_id_run w Hc). cbv zeta.
  rewrite Hs. simpl negb. cbv iota.
  rewrite extract_session_id_run. unfold session_of. rewrite Hroot.
  destruct (find root session_id_path) as [e|];
    eexists; (split; [reflexivity|]); repeat split.
Qed.

(** The target of a page request. *)
Lemma target_run (query : string) (next_url : JSON) (target : string) (w : World) :
  configured w base username password security_token ->
  (next_url = JNull /\ target = first_page_url base query)
  \/ (exists cursor, next_url = JStr cursor /\ target = base +:+ cursor) ->
  match next_url with
  | JNull =>
      base <- environ_get "SALESFORCE_URL" ;;
      ret (base +:+ first_page_gap +:+ "/services/data/v60.0/" +:+ query)
  | _ =>
      base <- environ_get "SALESFORCE_URL" ;;
      ret (base +:+ py_str lib next_url)
  end w = (inr target, w).
Proof.
  intros (Hb & _) [(-> & ->)|(cursor & -> & ->)];
    unfold bind; rewrite (environ_get_some _ _ _ Hb); reflexivity.
Qed.

(** One page: the login, the GET, and what is done with the answer. *)
Lemma page_run (depth : nat) (query : string) (next_url : JSON) (target : string)
    (records : list JSON) (cursor : option string) (w : World) :
  configured w base username password security_token ->
  (next_url = JNull /\ target = first_page_url base query)
  \/ (exists c, next_url = JStr c /\ target = base +:+ c) ->
  login_ok lib
    (server w (sent w) (login_request base username password security_token)) ->
  page_of
    (server w (sent w ++ [login_request base username password security_token])
       (query_request target
          (session_of lib
             (server w (sent w) (login_request base username password security_token)))))
    records cursor ->
  exists w2,
    sent w2 = sent w ++ [login_request base username password security_token;
                         query_request target
                           (session_of lib
                              (server w (sent w)
                                 (login_request base username password security_token)))]
    /\ environ w2 = environ w /\ server w2 = server w
    /\ get_rest_query_results lib (S depth) query next_url w
       = match cursor with
         | None => (inr (JArr records), w2)
         | Some c =>
             bind (get_rest_query_results lib depth query (JStr c))
                  (fun next_records => lift (extend (JArr records) next_records)) w2
         end.
Proof.
  intros Hc Ht Hl (Hs & members & Hj & Hr & Hn).
  destruct (login_run w Hc Hl) as (w1 & Hrun & Hsent & Henv & Hsrv).
  exists (sending (query_request target
                     (session_of lib
                        (server w (sent w)
                           (login_request base username password security_token)))) w1).
  split; [|split; [|split]].
  - simpl. rewrite Hsent, <- app_assoc. reflexivity.
  - exact Henv.
  - exact Hsrv.
  - cbn [get_rest_query_results].
    rewrite (bind_inr _ _ _ _ _ (target_run query next_url target w Hc Ht)).
    rewrite (bind_inr _ _ _ _ _ Hrun).
    unfold requests_get.
    fold (query_request target
            (session_of lib
               (server w (sent w) (login_request base username password security_token)))).
    unfold bind at 1, http at 1.
    rewrite Hsrv, Hsent, Hs. simpl negb. cbv iota.
    unfold bind at 1, response_json. rewrite Hj. unfold ret at 1.
    assert (Hrec : default (JArr []) (dict_get "records" members) = JArr records).
    { destruct Hr as [->|[-> ->]]; reflexivity. }
    rewrite Hrec, Hn.
    destruct cursor as [c|]; reflexivity.
Qed.

(** A conversation that paginates is run to its end, and the pages are
    concatenated in the order they were served. *)
Lemma paginates_run (query : string) (srv : Server) (h : list Request) (target : string)
    (pages : list (list JSON)) (h' : list Request) :
  paginates lib srv base username password security_token h target pages h' ->
  forall (depth : nat) (next_url : JSON) (w : World),
    server w = srv -> sent w = h ->
    configured w base username password security_token ->
    (next_url = JNull /\ target = first_page_url base query)
    \/ (exists c, next_url = JStr c /\ target = base +:+ c) ->
    (length pages <= depth)%nat ->
    exists w',
      get_rest_query_results lib depth query next_url w
      = (inr (JArr (concat pages)), w')
      /\ sent w' = h' /\ environ w' = environ w /\ server w' = server w.
Proof.
  induction 1 as [h target records Hl Hp | h target records cursor pages h' Hl Hp Hrest IH];
    intros depth next_url w Hsrv Hsent Hc Ht Hd; subst srv h;
    (destruct depth as [|depth]; [simpl in Hd; lia|]);
    destruct (page_run depth query next_url target _ _ w Hc Ht Hl Hp)
      as (w2 & Hsent2 & Henv2 & Hsrv2 & Hrun).
  - exists w2. rewrite Hrun. simpl. rewrite app_nil_r. auto.
  - destruct (IH depth (JStr cursor) w2) as (w' & Hrun' & Hsent' & Henv' & Hsrv').
    + exact Hsrv2.
    + exact Hsent2.
    + eapply configured_same; eauto.
    + right. eexists. split; reflexivity.
    + simpl in Hd. lia.
    + exists w'. rewrite Hrun. rewrite (bind_inr _ _ _ _ _ Hrun').
      simpl. repeat split; congruence.
Qed.

Lemma logins_app (a b : list Request) : logins (a ++ b) = (logins a + logins b)%nat.
Proof. unfold logins. now rewrite filter_app, length_app. Qed.

(** In a conversation that paginates, every page costs one login and one
    GET, and the GET carries the session id of the login just before it. *)
Lemma paginates_history (srv : Server) (h : list Request) (target : string)
    (pages : list (list JSON)) (h' : list Request) :
  paginates lib srv base username password security_token h target pages h' ->
  exists new,
    h' = h ++ new
    /\ length new = (2 * length pages)%nat
    /\ logins new = length pages
    /\ forall i, (i < length pages)%nat ->
         new !! (2 * i)%nat = Some (login_request base username password security_token)
         /\ exists tgt,
              new !! (2 * i + 1)%nat
              = Some (query_request tgt
                        (session_of lib
                           (srv (h ++ take (2 * i) new)
                                (login_request base username password security_token)))).
Proof.
  induction 1 as [h target records Hl Hp | h target records cursor pages h' Hl Hp Hrest IH].
  - eexists. split; [reflexivity|]. split; [reflexivity|]. split; [reflexivity|].
    intros i Hi. simpl in Hi. assert (i = 0%nat) as -> by lia.
    simpl. rewrite app_nil_r. split; [reflexivity|]. eexists. reflexivity.
  - destruct IH as (new & -> & Hlen & Hlog & Hall).
    exists ([login_request base username password security_token;
             query_request target
               (session_of lib
                  (srv h (login_request base username password security_token)))] ++ new).
    split; [now rewrite app_assoc|].
    split; [rewrite length_app, Hlen; simpl; lia|].
    split; [rewrite logins_app, Hlog; reflexivity|].
    intros [|i] Hi.
    + simpl. rewrite app_nil_r. split; [reflexivity|]. eexists. reflexivity.
    + simpl in Hi. destruct (Hall i) as (H1 & tgt & H2); [lia|].
      replace (2 * S i)%nat with (S (S (2 * i))) by lia.
      replace (S (S (2 * i)) + 1)%nat with (S (S (2 * i + 1))) by lia.
      set (k := (2 * i)%nat) in *. set (k1 := (k + 1)%nat) in *.
      simpl. split; [exact H1|]. exists tgt.
      rewrite H2. do 3 f_equal. now rewrite <- app_assoc.
Qed.

(** C1: when the server serves the pages of a result set one after the
    other, the executor returns the concatenation of their records in the
    order served (a page without a [records] member counts as empty), and
    the public entry point returns the same records, each without its
    [attributes] member. *)
Theorem pagination_concatenates (depth : nat) (query : string) (pages : list (list JSON))
    (h' : list Request) (w : World) :
  configured w base username password security_token ->
  paginates lib (server w) base username password security_token
    (sent w) (first_page_url base query) pages h' ->
  (length pages <= depth)%nat ->
  (exists w',
     get_rest_query_results lib depth query JNull w
     = (inr (JArr (concat pages)), w') /\ sent w' = h')
  /\ (forall object_name fields limit (records : list (list (string * JSON))),
        get_query object_name fields limit = inr query ->
        concat pages = map JObj records ->
        exists w',
          get_records_list lib depth object_name fields limit w
          = (inr (map (fun members =>
                         JObj (filter (fun kv => fst kv <> "attributes") members))
                      records), w')
          /\ sent w' = h').
Proof.
  intros Hc Hp Hd.
  destruct (paginates_run query _ _ _ _ _ Hp depth JNull w eq_refl eq_refl Hc) as
    (w' & Hrun & Hsent & _); [left; split; reflexivity | exact Hd |].
  split; [exists w'; split; assumption|].
  intros object_name fields limit records Hq Hrec.
  exists w'. split; [|exact Hsent].
  unfold get_records_list.
  assert (Ht : (negb (truthy_fields fields) && negb (truthy_limit limit))%bool = false).
  { unfold get_query in Hq.
    destruct (negb (truthy_fields fields) && negb (truthy_limit limit))%bool;
      [discriminate | reflexivity]. }
  rewrite Ht. unfold bind at 1, ret at 1.
  unfold bind at 1, lift at 1. rewrite Hq.
  rewrite (bind_inr _ _ _ _ _ Hrun).
  unfold bind, lift. simpl py_iter. cbv iota. rewrite Hrec.
  f_equal. clear. induction records as [|r rs IH]; [reflexivity|].
  simpl. simpl in IH. now rewrite IH.
Qed.

(** C4 (as amended): one login is made for every page; the GET of a page
    carries the session id which the login made just before it returned. *)
Theorem login_per_page (depth : nat) (query : string) (pages : list (list JSON))
    (h' : list Request) (w : World) :
  configured w base username password security_token ->
  paginates lib (server w) base username password security_token
    (sent w) (first_page_url base query) pages h' ->
  (length pages <= depth)%nat ->
  exists w' new,
    get_rest_query_results lib depth query JNull w
    = (inr (JArr (concat pages)), w')
    /\ sent w' = sent w ++ new
    /\ logins new = length pages
    /\ length new = (2 * length pages)%nat
    /\ forall i, (i < length pages)%nat ->
         new !! (2 * i)%nat = Some (login_request base username password security_token)
         /\ exists tgt,
              new !! (2 * i + 1)%nat
              = Some (query_request tgt
                        (session_of lib
                           (server w (sent w ++ take (2 * i) new)
                              (login_request base username password security_token)))).
Proof.
  intros Hc Hp Hd.
  destruct (paginates_run query _ _ _ _ _ Hp depth JNull w eq_refl eq_refl Hc) as
    (w' & Hrun & Hsent & _); [left; split; reflexivity | exact Hd |].
  destruct (paginates_history _ _ _ _ _ Hp) as (new & Hh & Hlen & Hlog & Hall).
  exists w', new. split; [exact Hrun|]. split; [congruence|].
  split; [exact Hlog|]. split; [exact Hlen|]. exact Hall.
Qed.

(** C5 (as amended): when the login answer is well-formed XML in which the
    path [.//Body/loginResponse/result/sessionId] selects nothing, extraction
    prints a warning and returns [None] without raising; the data request is
    then sent with the absent session id, and when the server refuses it the
    call ends in the query failure for that answer. *)
Theorem missing_session_id_is_soft (xml_str : string) (root : Element) (w : World) :
  ET_fromstring lib xml_str = Some root ->
  find root session_id_path = None ->
  extract_session_id lib xml_str w = (inr None, printed session_id_warning w)
  /\ (forall (depth : nat) (query : string),
        configured w base username password security_token ->
        status_code
          (server w (sent w) (login_request base username password security_token)) = 200 ->
        text (server w (sent w) (login_request base username password security_token))
        = xml_str ->
        status_code
          (server w (sent w ++ [login_request base username password security_token])
             (query_request (first_page_url base query) None)) <> 200 ->
        get_session_id lib username password security_token w
        = (inr None,
           printed session_id_warning
             (sending (login_request base username password security_token) w))
        /\ get_rest_query_results lib (S depth) query JNull w
           = (inl (Exception
                     (failure_message query_failed
                        (server w
                           (sent w ++ [login_request base username password security_token])
                           (query_request (first_page_url base query) None)))),
              sending (query_request (first_page_url base query) None)
                (printed session_id_warning
                   (sending (login_request base username password security_token) w)))).
Proof.
  intros Hroot Hfind.
  assert (Hx : forall w0, extract_session_id lib xml_str w0
                          = (inr None, printed session_id_warning w0)).
  { intros w0. rewrite extract_session_id_run, Hroot, Hfind. reflexivity. }
  split; [apply Hx|].
  intros depth query Hc Hs Htext Hbad.
  assert (Hlogin : get_session_id lib username password security_token w
                   = (inr None,
                      printed session_id_warning
                        (sending (login_request base username password security_token) w))).
  { rewrite (get_session_id_run w Hc). cbv zeta. rewrite Hs, Htext. simpl negb. cbv iota.
    apply Hx. }
  split; [exact Hlogin|].
  cbn [get_rest_query_results].
  rewrite (bind_inr _ _ _ _ _ (target_run query JNull _ w Hc
                                 (or_introl (conj eq_refl eq_refl)))).
  rewrite <- (fetch_session_id_run w Hc) in Hlogin.
  rewrite (bind_inr _ _ _ _ _ Hlogin).
  unfold requests_get.
  change (bearer None) with (bearer None).
  fold (query_request (first_page_url base query) None).
  unfold bind at 1, http at 1.
  cbn [sent printed sending server].
  apply Z.eqb_neq in Hbad. rewrite Hbad. reflexivity.
Qed.

(** ** HTTP failures abort the call *)

Lemma aborting_quiet {A} (gf : list string) (c : M A) :
  (forall w, sent (c w).2 = sent w /\ environ (c w).2 = environ w
             /\ server (c w).2 = server w) ->
  aborting gf c.
Proof.
  intros H w. destruct (H w) as (Hs & He & Hv).
  split; [exact He|]. split; [exact Hv|].
  exists []. split; [now rewrite app_nil_r|].
  intros [|x pre] rq post Heq; discriminate.
Qed.

Lemma aborting_ret {A} (gf : list string) (a : A) : aborting gf (ret a).
Proof. apply aborting_quiet. intros w. repeat split. Qed.

Lemma aborting_raise {A} (gf : list string) (e : PyExn) : aborting gf (@raise A e).
Proof. apply aborting_quiet. intros w. repeat split. Qed.

Lemma aborting_lift {A} (gf : list string) (r : PyExn + A) : aborting gf (lift r).
Proof. apply aborting_quiet. intros w. repeat split. Qed.

Lemma aborting_print (gf : list string) (line : string) : aborting gf (print line).
Proof. apply aborting_quiet. intros w. repeat split. Qed.

Lemma aborting_environ_get (gf : list string) (key : string) :
  aborting gf (environ_get key).
Proof.
  apply aborting_quiet. intros w. unfold environ_get.
  destruct (environ w !! key); repeat split.
Qed.

Lemma aborting_dict_item (gf : list string) (d : gmap string string) (key : string) :
  aborting gf (dict_item d key).
Proof.
  apply aborting_quiet. intros w. unfold dict_item.
  destruct (d !! key); repeat split.
Qed.

Lemma aborting_response_json (gf : list string) (response : Response) :
  aborting gf (response_json response).
Proof.
  apply aborting_quiet. intros w. unfold response_json.
  destruct (json response); repeat split.
Qed.

Lemma aborting_bind {A B} (gf : list string) (c : M A) (k : A -> M B) :
  aborting gf c -> (forall a, aborting gf (k a)) -> aborting gf (bind c k).
Proof.
  intros Hc Hk w. specialize (Hc w). unfold bind.
  destruct (c w) as [[e|a] w1] eqn:E.
  - destruct Hc as (He & Hv & new & Hs & Hall). simpl in *.
    split; [exact He|]. split; [exact Hv|]. exists new. split; [exact Hs|].
    intros pre rq post Heq Hbad.
    destruct (Hall pre rq post Heq Hbad) as (Hpost & prefix & Hin & Hout).
    split; [exact Hpost|]. exists prefix. split; [exact Hin|].
    simpl. injection Hout as ->. reflexivity.
  - destruct Hc as (He & Hv & new1 & Hs1 & Hall1). simpl in *.
    destruct (Hk a w1) as (He2 & Hv2 & new2 & Hs2 & Hall2).
    split; [congruence|]. split; [congruence|].
    exists (new1 ++ new2). split; [rewrite Hs2, Hs1; now rewrite app_assoc|].
    intros pre rq post Heq Hbad.
    symmetry in Heq. apply app_eq_app in Heq.
    destruct Heq as (l & [(Hpre & Hnew2) | (Hnew1 & Hrest)]).
    + assert (Hsame : server w1 (sent w1 ++ l) rq = server w (sent w ++ pre) rq)
        by (rewrite Hv, Hs1, <- app_assoc, <- Hpre; reflexivity).
      rewrite <- Hsame in *. exact (Hall2 l rq post Hnew2 Hbad).
    + destruct l as [|x l].
      * simpl in Hrest. rewrite app_nil_r in Hnew1. subst new1.
        assert (Hsame : server w1 (sent w1 ++ []) rq = server w (sent w ++ pre) rq)
          by (rewrite Hv, Hs1, app_nil_r; reflexivity).
        rewrite <- Hsame in *. exact (Hall2 [] rq post (eq_sym Hrest) Hbad).
      * injection Hrest as <- _.
        destruct (Hall1 pre rq l Hnew1 Hbad) as (_ & prefix & _ & Hout).
        discriminate.
Qed.

Lemma aborting_mono {A} (gf gf' : list string) (c : M A) :
  gf ⊆ gf' -> aborting gf c -> aborting gf' c.
Proof.
  intros Hsub Hc w. destruct (Hc w) as (He & Hv & new & Hs & Hall).
  split; [exact He|]. split; [exact Hv|]. exists new. split; [exact Hs|].
  intros pre rq post Heq Hbad.
  destruct (Hall pre rq post Heq Hbad) as (Hpost & prefix & Hin & Hout).
  split; [exact Hpost|]. exists prefix. split; [|exact Hout].
  unfold failures_for in *. destruct (method rq); [apply Hsub|]; exact Hin.
Qed.

(** A request whose answer is checked for success right away. *)
Lemma aborting_http_checked {A} (gf : list string) (rq : Request) (prefix : string)
    (msg : Response -> string) (k : Response -> M A) :
  prefix ∈ failures_for gf rq ->
  (forall r, msg r = failure_message prefix r) ->
  (forall r, aborting gf (k r)) ->
  aborting gf
    (bind (http rq)
       (fun response =>
          if negb (Z.eqb (status_code response) 200) then raise (Exception (msg response))
          else k response)).
Proof.
  intros Hin Hmsg Hk w. unfold bind, http, aborts_on_failure. cbv beta iota.
  destruct (Z.eqb_spec (status_code (server w (sent w) rq)) 200) as [Hok|Hbad];
    cbn [negb]; cbv beta iota.
  - destruct (Hk (server w (sent w) rq) (sending rq w)) as (He & Hv & new & Hs & Hall).
    split; [exact He|]. split; [exact Hv|].
    exists (rq :: new). split; [rewrite Hs; simpl; now rewrite <- app_assoc|].
    intros [|x pre] rq0 post Heq Hst.
    + injection Heq as <- <-. rewrite app_nil_r in Hst. contradiction.
    + injection Heq as <- Hnew.
      assert (Hsame : server (sending rq w) (sent (sending rq w) ++ pre) rq0
                      = server w (sent w ++ rq :: pre) rq0)
        by (simpl; now rewrite <- app_assoc).
      rewrite <- Hsame in *. exact (Hall pre rq0 post Hnew Hst).
  - split; [reflexivity|]. split; [reflexivity|].
    exists [rq]. split; [reflexivity|].
    intros [|x pre] rq0 post Heq Hst.
    + injection Heq as <- <-. split; [reflexivity|].
      exists prefix. split; [exact Hin|].
      simpl. rewrite app_nil_r, Hmsg. reflexivity.
    + injection Heq as _ Heq. destruct pre; discriminate.
Qed.

Lemma aborting_extract_session_id (gf : list string) (xml_str : string) :
  aborting gf (extract_session_id lib xml_str).
Proof.
  apply aborting_quiet. intros w. rewrite extract_session_id_run.
  destruct (ET_fromstring lib xml_str) as [root|]; [|repeat split].
  destruct (find root session_id_path); repeat split.
Qed.

Lemma aborting_get_session_id (gf : list string) (user pass token : string) :
  aborting gf (get_session_id lib user pass token).
Proof.
  unfold get_session_id, get_url.
  apply aborting_bind.
  - apply aborting_bind; [apply aborting_environ_get | intros b; apply aborting_ret].
  - intros u. unfold requests_post.
    apply (aborting_http_checked gf _ authentication_failed).
    + unfold failures_for. simpl. set_solver.
    + intros r. reflexivity.
    + intros r. apply aborting_extract_session_id.
Qed.

Lemma aborting_get_credentials (gf : list string) (integration : string) :
  aborting gf (get_credentials lib integration).
Proof.
  unfold get_credentials.
  repeat (apply aborting_bind; [apply aborting_environ_get | intros ?]).
  apply aborting_ret.
Qed.

Lemma aborting_fetch_session_id (gf : list string) :
  aborting gf (fetch_session_id lib).
Proof.
  unfold fetch_session_id.
  apply aborting_bind; [apply aborting_get_credentials | intros credentials].
  repeat (apply aborting_bind; [apply aborting_dict_item | intros ?]).
  apply aborting_get_session_id.
Qed.

Lemma aborting_get_rest_query_results (gf : list string) (depth : nat) :
  query_failed ∈ gf ->
  forall (query : string) (next_url : JSON),
    aborting gf (get_rest_query_results lib depth query next_url).
Proof.
  intros Hgf. induction depth as [|depth IH]; intros query next_url.
  - apply aborting_raise.
  - cbn [get_rest_query_results].
    apply aborting_bind.
    { destruct next_url;
        (apply aborting_bind; [apply aborting_environ_get | intros ?]);
        first [ apply aborting_ret
              | apply aborting_bind; [apply aborting_lift | intros ?; apply aborting_ret] ]. }
    intros u. apply aborting_bind; [apply aborting_fetch_session_id | intros session_id].
    unfold requests_get.
    apply (aborting_http_checked gf _ query_failed).
    + exact Hgf.
    + intros r. reflexivity.
    + intros r. apply aborting_bind; [apply aborting_response_json | intros data].
      destruct data; try apply aborting_raise.
      destruct (dict_get "nextRecordsUrl" members) as [cursor|]; [|apply aborting_ret].
      apply aborting_bind; [apply IH | intros next_records; apply aborting_lift].
Qed.

Lemma aborting_get_field_names (gf : list string) (object_name : string) :
  describe_failed ∈ gf ->
  aborting gf (get_field_names lib object_name).
Proof.
  intros Hgf. unfold get_field_names.
  apply aborting_bind; [apply aborting_environ_get | intros b].
  apply aborting_bind; [apply aborting_fetch_session_id | intros session_id].
  unfold requests_get.
  apply (aborting_http_checked gf _ describe_failed).
  - exact Hgf.
  - intros r. reflexivity.
  - intros r. apply aborting_bind; [apply aborting_response_json | intros data].
    apply aborting_bind; [apply aborting_lift | intros fields]. apply aborting_lift.
Qed.

Lemma aborting_get_records_list (depth : nat) (object_name : string)
    (fields : option (list string)) (limit : option Z) :
  aborting [describe_failed; query_failed]
    (get_records_list lib depth object_name fields limit).
Proof.
  unfold get_records_list.
  apply aborting_bind.
  { destruct (negb (truthy_fields fields) && negb (truthy_limit limit))%bool;
      [|apply aborting_ret].
    apply aborting_bind; [apply aborting_get_field_names; set_solver | intros names].
    apply aborting_bind; [apply aborting_lift | intros ss; apply aborting_ret]. }
  intros fields'. apply aborting_bind; [apply aborting_lift | intros query].
  apply aborting_bind;
    [apply aborting_get_rest_query_results; set_solver | intros raw_results].
  apply aborting_bind; [apply aborting_lift | intros items]. apply aborting_lift.
Qed.

Lemma target_run_any (query : string) (next_url : JSON) (w : World) :
  configured w base username password security_token ->
  match next_url with
  | JNull =>
      base <- environ_get "SALESFORCE_URL" ;;
      ret (base +:+ first_page_gap +:+ "/services/data/v60.0/" +:+ query)
  | _ =>
      base <- environ_get "SALESFORCE_URL" ;;
      ret (base +:+ py_str lib next_url)
  end w = (inr (page_target lib base query next_url), w).
Proof.
  intros (Hb & _). destruct next_url; unfold bind;
    rewrite (environ_get_some _ _ _ Hb); reflexivity.
Qed.

(** A login answered with a status other than 200. *)
Lemma login_failure_run (w : World) :
  configured w base username password security_token ->
  status_code (server w (sent w) (login_request base username password security_token)) <> 200 ->
  fetch_session_id lib w
  = (inl (Exception
            (failure_message authentication_failed (server w (sent w) (login_request base username password security_token)))),
     sending (login_request base username password security_token) w).
Proof.
  intros Hc Hbad. rewrite (fetch_session_id_run w Hc), (get_session_id_run w Hc).
  cbv zeta. apply Z.eqb_neq in Hbad. rewrite Hbad. reflexivity.
Qed.

(** A data request answered with a status other than 200. *)
Lemma query_failure_run (depth : nat) (query : string) (next_url : JSON) (w : World) :
  configured w base username password security_token ->
  login_ok lib (server w (sent w) (login_request base username password security_token)) ->
  status_code
    (server w (sent w ++ [(login_request base username password security_token)])
       (query_request (page_target lib base query next_url) (session_of lib (server w (sent w) (login_request base username password security_token))))) <> 200 ->
  get_rest_query_results lib (S depth) query next_url w
  = (inl (Exception
            (failure_message query_failed
               (server w (sent w ++ [(login_request base username password security_token)])
                  (query_request (page_target lib base query next_url) (session_of lib (server w (sent w) (login_request base username password security_token))))))),
     page_world lib (page_target lib base query next_url) w).
Proof.
  intros Hc Hl Hbad.
  destruct (login_run w Hc Hl) as (w1 & Hrun & Hsent & Henv & Hsrv).
  unfold page_world. rewrite Hrun.
  cbn [get_rest_query_results].
  rewrite (bind_inr _ _ _ _ _ (target_run_any query next_url w Hc)).
  rewrite (bind_inr _ _ _ _ _ Hrun).
  unfold requests_get.
  fold (query_request (page_target lib base query next_url) (session_of lib (server w (sent w) (login_request base username password security_token)))).
  unfold bind at 1, http at 1.
  rewrite Hsrv, Hsent. apply Z.eqb_neq in Hbad. rewrite Hbad. reflexivity.
Qed.

(** A describe request answered with a status other than 200. *)
Lemma describe_failure_run (object_name : string) (w : World) :
  configured w base username password security_token ->
  login_ok lib (server w (sent w) (login_request base username password security_token)) ->
  status_code
    (server w (sent w ++ [(login_request base username password security_token)]) (describe_request base object_name (session_of lib (server w (sent w) (login_request base username password security_token))))) <> 200 ->
  get_field_names lib object_name w
  = (inl (Exception
            (failure_message describe_failed
               (server w (sent w ++ [(login_request base username password security_token)]) (describe_request base object_name (session_of lib (server w (sent w) (login_request base username password security_token))))))),
     describe_world lib base object_name w).
Proof.
  intros Hc Hl Hbad.
  destruct (login_run w Hc Hl) as (w1 & Hrun & Hsent & Henv & Hsrv).
  unfold describe_world. rewrite Hrun.
  unfold get_field_names. destruct Hc as (Hb & _).
  rewrite (bind_inr _ _ _ _ _ (environ_get_some _ _ _ Hb)).
  rewrite (bind_inr _ _ _ _ _ Hrun).
  unfold requests_get.
  fold (describe_url base object_name).
  fold (describe_request base object_name (session_of lib (server w (sent w) (login_request base username password security_token)))).
  unfold bind at 1, http at 1.
  rewrite Hsrv, Hsent. apply Z.eqb_neq in Hbad. rewrite Hbad. reflexivity.
Qed.

(** C7: a login, a data request or a describe request that is answered with
    a status other than 200 makes the operation that sent it, and the public
    entry point with it, raise the exception of that endpoint, which carries
    the status code and the body of the answer; the failing request is the
    last one sent, so no record list is returned and nothing is tried
    again.  The first part holds of every run; the others show the failure
    at each endpoint. *)
Theorem http_failure_aborts (depth : nat) (object_name query : string)
    (fields : option (list string)) (limit : option Z) (next_url : JSON)
    (user pass token : string) (w : World) :
  (aborts_on_failure [] w (get_session_id lib user pass token w)
   /\ aborts_on_failure [query_failed] w
        (get_rest_query_results lib depth query next_url w)
   /\ aborts_on_failure [describe_failed] w (get_field_names lib object_name w)
   /\ aborts_on_failure [describe_failed; query_failed] w
        (get_records_list lib depth object_name fields limit w))
  /\ (configured w base username password security_token ->
      status_code (server w (sent w) (login_request base username password security_token)) <> 200 ->
      get_session_id lib username password security_token w
      = (inl (Exception
                (failure_message authentication_failed (server w (sent w) (login_request base username password security_token)))),
         sending (login_request base username password security_token) w)
      /\ get_rest_query_results lib (S depth) query next_url w
         = (inl (Exception
                   (failure_message authentication_failed (server w (sent w) (login_request base username password security_token)))),
            sending (login_request base username password security_token) w)
      /\ get_field_names lib object_name w
         = (inl (Exception
                   (failure_message authentication_failed (server w (sent w) (login_request base username password security_token)))),
            sending (login_request base username password security_token) w)
      /\ get_records_list lib (S depth) object_name fields limit w
         = (inl (Exception
                   (failure_message authentication_failed (server w (sent w) (login_request base username password security_token)))),
            sending (login_request base username password security_token) w))
  /\ (configured w base username password security_token ->
      login_ok lib (server w (sent w) (login_request base username password security_token)) ->
      status_code
        (server w (sent w ++ [(login_request base username password security_token)]) (describe_request base object_name (session_of lib (server w (sent w) (login_request base username password security_token))))) <> 200 ->
      get_field_names lib object_name w
      = (inl (Exception
                (failure_message describe_failed
                   (server w (sent w ++ [(login_request base username password security_token)])
                      (describe_request base object_name (session_of lib (server w (sent w) (login_request base username password security_token))))))),
         describe_world lib base object_name w)
      /\ ((negb (truthy_fields fields) && negb (truthy_limit limit))%bool = true ->
          get_records_list lib depth object_name fields limit w
          = (inl (Exception
                    (failure_message describe_failed
                       (server w (sent w ++ [(login_request base username password security_token)])
                          (describe_request base object_name (session_of lib (server w (sent w) (login_request base username password security_token))))))),
             describe_world lib base object_name w)))
  /\ (configured w base username password security_token ->
      login_ok lib (server w (sent w) (login_request base username password security_token)) ->
      status_code
        (server w (sent w ++ [(login_request base username password security_token)])
           (query_request (page_target lib base query next_url) (session_of lib (server w (sent w) (login_request base username password security_token))))) <> 200 ->
      get_rest_query_results lib (S depth) query next_url w
      = (inl (Exception
                (failure_message query_failed
                   (server w (sent w ++ [(login_request base username password security_token)])
                      (query_request (page_target lib base query next_url) (session_of lib (server w (sent w) (login_request base username password security_token))))))),
         page_world lib (page_target lib base query next_url) w))
  /\ (configured w base username password security_token ->
      login_ok lib (server w (sent w) (login_request base username password security_token)) ->
      get_query object_name fields limit = inr query ->
      status_code
        (server w (sent w ++ [(login_request base username password security_token)])
           (query_request (first_page_url base query) (session_of lib (server w (sent w) (login_request base username password security_token))))) <> 200 ->
      get_records_list lib (S depth) object_name fields limit w
      = (inl (Exception
                (failure_message query_failed
                   (server w (sent w ++ [(login_request base username password security_token)])
                      (query_request (first_page_url base query) (session_of lib (server w (sent w) (login_request base username password security_token))))))),
         page_world lib (first_page_url base query) w)).
Proof.
  split.
  { split; [apply aborting_get_session_id|].
    split; [apply aborting_get_rest_query_results; set_solver|].
    split; [apply aborting_get_field_names; set_solver|].
    apply aborting_get_records_list. }
  split; [|split; [|split]].
  - intros Hc Hbad.
    pose proof (login_failure_run w Hc Hbad) as Hlogin.
    assert (Hquery : forall q n,
              get_rest_query_results lib (S depth) q n w
              = (inl (Exception
                        (failure_message authentication_failed
                           (server w (sent w) (login_request base username password security_token)))),
                 sending (login_request base username password security_token) w)).
    { intros q n. cbn [get_rest_query_results].
      rewrite (bind_inr _ _ _ _ _ (target_run_any q n w Hc)).
      unfold bind at 1. now rewrite Hlogin. }
    assert (Hdescribe : get_field_names lib object_name w
                        = (inl (Exception
                                  (failure_message authentication_failed
                                     (server w (sent w) (login_request base username password security_token)))),
                           sending (login_request base username password security_token) w)).
    { unfold get_field_names. destruct Hc as (Hb & _).
      rewrite (bind_inr _ _ _ _ _ (environ_get_some _ _ _ Hb)).
      unfold bind at 1. now rewrite Hlogin. }
    split; [now rewrite <- (fetch_session_id_run w Hc)|].
    split; [apply Hquery|]. split; [exact Hdescribe|].
    unfold get_records_list.
    destruct (negb (truthy_fields fields) && negb (truthy_limit limit))%bool eqn:Ht.
    + unfold bind at 1. unfold bind at 1. now rewrite Hdescribe.
    + unfold bind at 1, ret at 1. unfold get_query. rewrite Ht.
      unfold bind at 1, lift at 1. unfold bind at 1. now rewrite Hquery.
  - intros Hc Hl Hbad.
    pose proof (describe_failure_run object_name w Hc Hl Hbad) as Hdescribe.
    split; [exact Hdescribe|].
    intros Ht. unfold get_records_list. rewrite Ht.
    unfold bind at 1. unfold bind at 1. now rewrite Hdescribe.
  - intros Hc Hl Hbad. now apply query_failure_run.
  - intros Hc Hl Hq Hbad.
    unfold get_records_list.
    assert (Ht : (negb (truthy_fields fields) && negb (truthy_limit limit))%bool = false).
    { unfold get_query in Hq.
      destruct (negb (truthy_fields fields) && negb (truthy_limit limit))%bool;
        [discriminate | reflexivity]. }
    rewrite Ht. unfold bind at 1, ret at 1. unfold bind at 1, lift at 1. rewrite Hq.
    unfold bind at 1.
    now rewrite (query_failure_run depth query JNull w Hc Hl Hbad).
Qed.

End ClientFacts.

(** ** Empty arguments *)

(** C10: an empty field list and a zero limit are treated as absent ones:
    the query builder gives the same result (the error when the other
    argument is absent, empty or zero; the [FIELDS(ALL)] clause, or no LIMIT
    clause, otherwise), and so does the public entry point, which discovers
    the field names for [fields=[]] without a limit as it does for
    [fields=None]. *)
Theorem empty_is_absent (lib : Library) (depth : nat)
    (object_name : string) (fields : option (list string)) (limit : option Z)
    (w : World) :
  get_query object_name (Some []) limit = get_query object_name None limit
  /\ get_query object_name fields (Some 0) = get_query object_name fields None
  /\ get_query object_name (Some []) None = inl invalid_query
  /\ get_query object_name (Some []) (Some 0) = inl invalid_query
  /\ get_query object_name None (Some 0) = inl invalid_query
  /\ (truthy_limit limit = true ->
      get_query object_name (Some []) limit
      = inr ("queryAll/?q=SELECT+FIELDS(ALL)+FROM+" +:+ object_name
             +:+ "+LIMIT+" +:+ str_of_int (default 0 limit)))
  /\ (truthy_fields fields = true ->
      get_query object_name fields (Some 0)
      = inr ("queryAll/?q=SELECT+" +:+ join "," (default [] fields)
             +:+ "+FROM+" +:+ object_name))
  /\ get_records_list lib depth object_name (Some []) limit w
     = get_records_list lib depth object_name None limit w
  /\ get_records_list lib depth object_name fields (Some 0) w
     = get_records_list lib depth object_name fields None w
  /\ get_records_list lib depth object_name (Some []) None w
     = (names <- get_field_names lib object_name ;;
        discovered <- lift (as_strings names) ;;
        query <- lift (get_query object_name (Some discovered) None) ;;
        raw_results <- get_rest_query_results lib depth query JNull ;;
        items <- lift (py_iter raw_results) ;;
        lift (strip_all items)) w.
Proof.
  repeat match goal with |- _ /\ _ => split end; try reflexivity.
  - intros Hl. rewrite get_query_returns by (rewrite Hl; apply orb_true_r).
    now rewrite Hl.
  - intros Hf. rewrite get_query_returns by (rewrite Hf; reflexivity).
    rewrite Hf. change (truthy_limit (Some 0)) with false. cbv iota.
    now rewrite append_nil_r.
  - unfold get_records_list. change (truthy_fields (Some [])) with false.
    change (truthy_fields None) with false.
    destruct (truthy_limit limit); reflexivity.
  - unfold get_records_list. cbn [truthy_fields truthy_limit negb andb]. unfold bind.
    destruct (get_field_names lib object_name w) as [[e|names] w1];
      [reflexivity|].
    unfold lift. destruct (as_strings names) as [e|discovered]; reflexivity.
Qed.

Lemma empty_is_absent_witness :
  get_query "Account" (Some []) (Some 5)
  = inr ("queryAll/?q=SELECT+FIELDS(ALL)+FROM+" +:+ "Account"
         +:+ "+LIMIT+" +:+ str_of_int (default 0 (Some 5))).
Proof.
  exact (proj1 (proj2 (proj2 (proj2 (proj2 (proj2
           (empty_is_absent demo_library 1 "Account" None (Some 5)
              (demo_world paged_server)))))))
           eq_refl).
Defined.

Example discovery_for_empty_fields :
  let out := get_records_list demo_library 5 "Account" (Some []) None
               (demo_world describing_server) in
  out.1 = inr [clean_account "001C" "Cask"]
  /\ url <$> (sent out.2 !! 1%nat)
     = Some (demo_base +:+ "/services/data/v60.0/sobjects/Account/describe/")
  /\ url <$> (sent out.2 !! 3%nat) = Some (first_page_url demo_base demo_query).
Proof. vm_compute. repeat split. Qed.

(** * The examples of the specification *)

Lemma demo_configured (srv : Server) :
  configured (demo_world srv) demo_base "user@example.com" "p<ss" "t&k".
Proof. repeat split. Qed.

Lemma paged_server_paginates :
  exists h',
    paginates demo_library paged_server demo_base "user@example.com" "p<ss" "t&k"
      [] (first_page_url demo_base demo_query)
      [[record_A; record_B]; [record_C]] h'.
Proof.
  eexists. eapply paginates_more with (cursor := "/cursor2").
  - split; [reflexivity|]. vm_compute. eexists; reflexivity.
  - split; [reflexivity|]. eexists. split; [reflexivity|].
    split; [left; reflexivity | reflexivity].
  - eapply paginates_last.
    + split; [reflexivity|]. vm_compute. eexists; reflexivity.
    + split; [reflexivity|]. eexists. split; [reflexivity|].
      split; [left; reflexivity | reflexivity].
Qed.

Lemma rotating_server_paginates :
  exists h',
    paginates demo_library rotating_server demo_base "user@example.com" "p<ss" "t&k"
      [] (first_page_url demo_base demo_query)
      [[record_A; record_B]; [record_C]] h'.
Proof.
  eexists. eapply paginates_more with (cursor := "/cursor2").
  - split; [reflexivity|]. vm_compute. eexists; reflexivity.
  - split; [reflexivity|]. eexists. split; [reflexivity|].
    split; [left; reflexivity | reflexivity].
  - eapply paginates_last.
    + split; [reflexivity|]. vm_compute. eexists; reflexivity.
    + split; [reflexivity|]. eexists. split; [reflexivity|].
      split; [left; reflexivity | reflexivity].
Qed.

(** The two-page example of the specification, through the public entry
    point. *)
Lemma pagination_concatenates_witness :
  exists w',
    get_records_list demo_library 2 "Account" (Some ["Id"; "Name"]) None
      (demo_world paged_server)
    = (inr [clean_account "001A" "Acme"; clean_account "001B" "Bolt";
            clean_account "001C" "Cask"], w').
Proof.
  destruct paged_server_paginates as [h' Hp].
  destruct (pagination_concatenates demo_library demo_base
              "user@example.com" "p<ss" "t&k" 2 demo_query
              [[record_A; record_B]; [record_C]] h' (demo_world paged_server)
              (demo_configured paged_server) Hp) as [_ H]; [simpl; lia|].
  destruct (H "Account" (Some ["Id"; "Name"]) None
              [account_members "001A" "Acme"; account_members "001B" "Bolt";
               account_members "001C" "Cask"] eq_refl eq_refl) as (w' & Hrun & _).
  exists w'. exact Hrun.
Defined.

Example missing_records_is_empty :
  (get_rest_query_results demo_library 1 demo_query JNull
     (demo_world (fun h rq =>
                    match method rq with
                    | POST => ok_login "S1"
                    | GET => ok_json (JObj [("done", JBool true)])
                    end))).1
  = inr (JArr []).
Proof. vm_compute. reflexivity. Qed.

Lemma login_per_page_witness :
  exists w' new,
    get_rest_query_results demo_library 2 demo_query JNull (demo_world rotating_server)
    = (inr (JArr [record_A; record_B; record_C]), w')
    /\ sent w' = new /\ logins new = 2%nat.
Proof.
  destruct rotating_server_paginates as [h' Hp].
  destruct (login_per_page demo_library demo_base
              "user@example.com" "p<ss" "t&k" 2 demo_query
              [[record_A; record_B]; [record_C]] h' (demo_world rotating_server)
              (demo_configured rotating_server) Hp) as (w' & new & Hrun & Hsent & Hlog & _);
    [simpl; lia|].
  exists w', new. split; [exact Hrun|]. split; [exact Hsent | exact Hlog].
Defined.

(** C4, as stated, fails on a two-page result: two logins are made, and the
    second page is requested with the session id of the second login. *)
Lemma two_pages_two_logins :
  let out := get_rest_query_results demo_library 2 demo_query JNull
               (demo_world rotating_server) in
  out.1 = inr (JArr [record_A; record_B; record_C])
  /\ logins (sent out.2) = 2%nat
  /\ logins (sent out.2) <> 1%nat
  /\ authorization_at 1 (sent out.2) = Some "Bearer S1"
  /\ authorization_at 3 (sent out.2) = Some "Bearer S2".
Proof. vm_compute. repeat split. discriminate. Qed.

(** C3: the target of the first request is the base URL, seventeen blanks,
    and then the path, where the specification has the base URL followed at
    once by the path; the target of a continuation is the base URL
    followed at once by the cursor. *)
Theorem first_page_url_has_blanks (base query : string) :
  first_page_url base query
  = base +:+ "                 " +:+ "/services/data/v60.0/" +:+ query
  /\ first_page_url base query <> base +:+ "/services/data/v60.0/" +:+ query
  /\ (let out := get_rest_query_results demo_library 2 demo_query JNull
                   (demo_world paged_server) in
      url <$> (sent out.2 !! 1%nat)
      = Some ("https://example.my.salesforce.com                 "
              +:+ "/services/data/v60.0/queryAll/?q=SELECT+Id,Name+FROM+Account")
      /\ url <$> (sent out.2 !! 3%nat) = Some "https://example.my.salesforce.com/cursor2").
Proof.
  split; [reflexivity|]. split.
  - unfold first_page_url. intros H. apply append_inv_head in H. discriminate.
  - vm_compute. split; reflexivity.
Qed.

(** C5, as stated, fails on a document without any Envelope element: the
    path of the code selects the session id under a Body found deeper in
    the document, and extraction returns it without a warning. *)
Lemma stray_body_yields_session_id :
  demo_fromstring stray_document = Some stray_tree
  /\ find_from_envelope stray_tree = None
  /\ forallb (fun e => negb (String.eqb (elem_tag e) (clark soapenv "Envelope")))
       (elem_iter stray_tree) = true
  /\ extract_session_id demo_library stray_document (demo_world paged_server)
     = (inr (Some "S9"), demo_world paged_server).
Proof. vm_compute. repeat split. Qed.

Lemma missing_session_id_is_soft_witness :
  extract_session_id demo_library unsigned_document (demo_world anonymous_server)
  = (inr None, printed session_id_warning (demo_world anonymous_server))
  /\ (get_rest_query_results demo_library 1 demo_query JNull
        (demo_world anonymous_server)).1
     = inl (Exception
              (failure_message query_failed
                 {| status_code := 401; text := "INVALID_SESSION_ID"; json := None |})).
Proof.
  destruct (missing_session_id_is_soft demo_library demo_base
              "user@example.com" "p<ss" "t&k" unsigned_document unsigned_tree
              (demo_world anonymous_server) eq_refl eq_refl) as [Hx Hd].
  split; [exact Hx|].
  destruct (Hd 0%nat demo_query (demo_configured anonymous_server) eq_refl eq_refl)
    as [_ Hrun]; [discriminate|].
  rewrite Hrun. reflexivity.
Defined.

Lemma http_failure_aborts_witness :
  (get_records_list demo_library 1 "Account" (Some ["Id"; "Name"]) None
     (demo_world rejecting_server)).1
  = inl (Exception
           (failure_message authentication_failed
              {| status_code := 401; text := "INVALID_LOGIN"; json := None |}))
  /\ (get_field_names demo_library "Account" (demo_world anonymous_server)).1
     = inl (Exception
              (failure_message describe_failed
                 {| status_code := 401; text := "INVALID_SESSION_ID"; json := None |}))
  /\ (get_records_list demo_library 1 "Account" None None
        (demo_world anonymous_server)).1
     = inl (Exception
              (failure_message describe_failed
                 {| status_code := 401; text := "INVALID_SESSION_ID"; json := None |}))
  /\ (get_records_list demo_library 1 "Account" (Some ["Id"; "Name"]) None
        (demo_world anonymous_server)).1
     = inl (Exception
              (failure_message query_failed
                 {| status_code := 401; text := "INVALID_SESSION_ID"; json := None |}))
  /\ (exists prefix,
        prefix ∈ [describe_failed; query_failed]
        /\ (get_records_list demo_library 5 "Account" (Some ["Id"; "Name"]) None
              (demo_world failing_server)).1
           = inl (Exception
                    (failure_message prefix
                       {| status_code := 500; text := "boom"; json := None |}))).
Proof.
  assert (Hanon : login_ok demo_library
                    (server (demo_world anonymous_server)
                       (sent (demo_world anonymous_server))
                       (login_request demo_base "user@example.com" "p<ss" "t&k"))).
  { split; [reflexivity|]. vm_compute. eexists. reflexivity. }
  split; [|split; [|split; [|split]]].
  - destruct (http_failure_aborts demo_library demo_base "user@example.com" "p<ss" "t&k"
                0 "Account" demo_query (Some ["Id"; "Name"]) None JNull
                "user@example.com" "p<ss" "t&k" (demo_world rejecting_server))
      as (_ & Hlogin & _).
    destruct (Hlogin (demo_configured rejecting_server)) as (_ & _ & _ & Hrun);
      [vm_compute; discriminate|].
    rewrite Hrun. reflexivity.
  - destruct (http_failure_aborts demo_library demo_base "user@example.com" "p<ss" "t&k"
                0 "Account" demo_query None None JNull
                "user@example.com" "p<ss" "t&k" (demo_world anonymous_server))
      as (_ & _ & Hdescribe & _).
    destruct (Hdescribe (demo_configured anonymous_server) Hanon) as (Hrun & _);
      [vm_compute; discriminate|].
    rewrite Hrun. reflexivity.
  - destruct (http_failure_aborts demo_library demo_base "user@example.com" "p<ss" "t&k"
                1 "Account" demo_query None None JNull
                "user@example.com" "p<ss" "t&k" (demo_world anonymous_server))
      as (_ & _ & Hdescribe & _).
    destruct (Hdescribe (demo_configured anonymous_server) Hanon) as (_ & Hrun);
      [vm_compute; discriminate|].
    rewrite (Hrun eq_refl). reflexivity.
  - destruct (http_failure_aborts demo_library demo_base "user@example.com" "p<ss" "t&k"
                0 "Account" demo_query (Some ["Id"; "Name"]) None JNull
                "user@example.com" "p<ss" "t&k" (demo_world anonymous_server))
      as (_ & _ & _ & _ & Hquery).
    rewrite (Hquery (demo_configured anonymous_server) Hanon eq_refl);
      [reflexivity | vm_compute; discriminate].
  - destruct (http_failure_aborts demo_library demo_base "user@example.com" "p<ss" "t&k"
                5 "Account" demo_query (Some ["Id"; "Name"]) None JNull
                "user@example.com" "p<ss" "t&k" (demo_world failing_server))
      as ((_ & _ & _ & (_ & _ & new & Hs & Hall)) & _).
    change (sent (demo_world failing_server) ++ new) with new in Hs.
    destruct (Hall [demo_login;
                    query_request (first_page_url demo_base demo_query) (Some "S1");
                    demo_login]
                   (query_request (demo_base +:+ "/cursor2") (Some "S1")) [])
      as (_ & prefix & Hin & Hout).
    + rewrite <- Hs. vm_compute. reflexivity.
    + vm_compute. discriminate.
    + exists prefix. split; [exact Hin | exact Hout].
Defined.

Example failing_page_message :
  (get_records_list demo_library 5 "Account" (Some ["Id"; "Name"]) None
     (demo_world failing_server)).1
  = inl (Exception ("REST query failed with a status of                         "
                    +:+ "500: boom")).
Proof. vm_compute. reflexivity. Qed.

(** * Further properties of the code *)

(** ** Escaping and the login body *)

Lemma length_append (a b : string) :
  String.length (a +:+ b) = (String.length a + String.length b)%nat.
Proof.
  induction a as [|c a IH]; [reflexivity|].
  rewrite append_cons. simpl. now rewrite IH.
Qed.

Lemma append_inv_tail (a b c : string) : a +:+ c = b +:+ c -> a = b.
Proof.
  revert b. induction a as [|x a IH]; intros [|y b] H.
  - reflexivity.
  - apply (f_equal String.length) in H. rewrite !length_append in H. simpl in H. lia.
  - apply (f_equal String.length) in H. rewrite !length_append in H. simpl in H. lia.
  - rewrite !append_cons in H. injection H as -> H. f_equal. now apply IH.
Qed.

Lemma unescape_escape_each (s : string) : unescape_from 0 (escape_each s) = s.
Proof.
  induction s as [|c s IH]; [reflexivity|].
  simpl. now rewrite unescape_escape_char, IH.
Qed.

Lemma escape_chars_injective (a b : string) : escape_chars a = escape_chars b -> a = b.
Proof.
  intros H. rewrite !escape_chars_each in H.
  rewrite <- (unescape_escape_each a), <- (unescape_escape_each b). now rewrite H.
Qed.

Lemma escape_char_plain_char (c : ascii) : special c = false -> escape_char c = str1 c.
Proof. destruct c as [[] [] [] [] [] [] [] []]; intros H; first [reflexivity | discriminate]. Qed.

Lemma escape_char_length (c : ascii) :
  (1 <= String.length (escape_char c))%nat
  /\ (String.length (escape_char c) = 1%nat -> special c = false).
Proof.
  destruct c as [[] [] [] [] [] [] [] []]; (split; [simpl; lia|]);
    intros H; first [reflexivity | discriminate].
Qed.

Lemma escape_each_length (s : string) :
  (String.length s <= String.length (escape_each s))%nat.
Proof.
  induction s as [|c s IH]; [reflexivity|].
  simpl. rewrite length_append. pose proof (proj1 (escape_char_length c)). lia.
Qed.

(** X1: escaping distributes over concatenation and loses nothing: two
    strings with the same escaped form are the same string. *)
Theorem escape_chars_morphism (a b : string) :
  escape_chars (a +:+ b) = escape_chars a +:+ escape_chars b
  /\ (escape_chars a = escape_chars b <-> a = b).
Proof.
  split; [apply escape_chars_append|].
  split; [apply escape_chars_injective | now intros ->].
Qed.

(** X2: [escape_chars] leaves a string as it is exactly when the string has
    none of the five characters; in every other case the output is longer
    than the input. *)
Theorem escape_chars_fixed_iff (s : string) :
  (escape_chars s = s
   <-> Forall (fun c => special c = false) (list_ascii_of_string s))
  /\ (String.length s <= String.length (escape_chars s))%nat
  /\ (String.length (escape_chars s) = String.length s -> escape_chars s = s).
Proof.
  rewrite escape_chars_each.
  assert (Hfix : Forall (fun c => special c = false) (list_ascii_of_string s) ->
                 escape_each s = s).
  { induction s as [|c s IH]; [reflexivity|].
    simpl. intros H. inversion H as [|? ? Hc Hs]; subst.
    rewrite (escape_char_plain_char c Hc), (IH Hs). reflexivity. }
  assert (Hlen : String.length (escape_each s) = String.length s ->
                 Forall (fun c => special c = false) (list_ascii_of_string s)).
  { clear Hfix. induction s as [|c s IH]; [constructor|].
    simpl. rewrite length_append. intros H.
    pose proof (escape_char_length c) as [H1 H2].
    pose proof (escape_each_length s).
    constructor; [apply H2; lia | apply IH; lia]. }
  split; [|split].
  - split; [|exact Hfix]. intros H. apply Hlen. now rewrite H.
  - apply escape_each_length.
  - intros H. apply Hfix, Hlen, H.
Qed.

Lemma escape_chars_fixed_iff_witness : escape_chars "s3cret-Token_42" = "s3cret-Token_42".
Proof.
  apply (proj2 (proj2 (escape_chars_fixed_iff "s3cret-Token_42"))). reflexivity.
Defined.

(** X3: the login body carries the password and the token as one escaped
    string: the body is the same when the token is appended to the password
    beforehand, two bodies for one username agree only when the
    concatenations agree, and the username is written into the body as it
    is, without escaping. *)
Theorem get_body_credentials (password security_token : string) :
  (forall username,
     get_body username password security_token
     = get_body username (password +:+ security_token) EmptyString)
  /\ (forall username password' security_token',
        get_body username password security_token
        = get_body username password' security_token'
        -> password +:+ security_token = password' +:+ security_token')
  /\ (exists before after, forall username,
        get_body username password security_token = before +:+ username +:+ after).
Proof.
  split; [|split].
  - intros username. unfold get_body. cbv zeta.
    rewrite escape_chars_append.
    change (escape_chars EmptyString) with EmptyString.
    rewrite (append_assoc (escape_chars password)).
    reflexivity.
  - intros username password' security_token' H.
    unfold get_body in H. cbv zeta in H.
    repeat apply append_inv_head in H.
    rewrite <- !(append_assoc (escape_chars _) (escape_chars _)) in H.
    apply append_inv_tail in H.
    rewrite <- !escape_chars_append in H.
    now apply escape_chars_injective.
  - exists
      ("<?xml version=" +:+ str1 dquote +:+ "1.0" +:+ str1 dquote +:+ " encoding="
       +:+ str1 dquote +:+ "utf-8" +:+ str1 dquote +:+ " ?>" +:+ str1 newline +:+
       "    <env:Envelope xmlns:xsd=" +:+ str1 dquote
       +:+ "http://www.w3.org/2001/XMLSchema" +:+ str1 dquote +:+ str1 newline +:+
       "        xmlns:xsi=" +:+ str1 dquote
       +:+ "http://www.w3.org/2001/XMLSchema-instance" +:+ str1 dquote +:+ str1 newline +:+
       "        xmlns:env=" +:+ str1 dquote
       +:+ "http://schemas.xmlsoap.org/soap/envelope/" +:+ str1 dquote +:+ ">"
       +:+ str1 newline +:+
       "      <env:Body>" +:+ str1 newline +:+
       "        <n1:login xmlns:n1=" +:+ str1 dquote +:+ "urn:partner.soap.sforce.com"
       +:+ str1 dquote +:+ ">" +:+ str1 newline +:+
       "          <n1:username>"),
      ("</n1:username>" +:+ str1 newline +:+
       "          <n1:password>" +:+ escape_chars password +:+ escape_chars security_token
       +:+ "</n1:password>" +:+ str1 newline +:+
       "        </n1:login>" +:+ str1 newline +:+
       "      </env:Body>" +:+ str1 newline +:+
       "    </env:Envelope>").
    intros username. reflexivity.
Qed.

Lemma get_body_credentials_witness :
  "p<ss" +:+ "t&k" = "p<" +:+ "sst&k".
Proof.
  apply (proj1 (proj2 (get_body_credentials "p<ss" "t&k")) "user@example.com").
  reflexivity.
Defined.

(** ** Values of a key, and records without attributes *)

Lemma get_nested_values_items_objects (key : string) (ms : list (list (string * JSON)))
    (vs : list JSON) :
  get_nested_values_items key (map JObj ms) = inr vs
  <-> Forall2 (fun m v => dict_get key m = Some v) ms vs.
Proof.
  revert vs. induction ms as [|m ms IH]; intros vs; simpl.
  - split; [intros [= <-]; constructor | intros H; inversion H; reflexivity].
  - destruct (dict_get key m) as [v|] eqn:Hm.
    + destruct (get_nested_values_items key (map JObj ms)) as [e|vs'] eqn:Hrest.
      * split; [discriminate|]. intros H. inversion H as [|? ? ? ? H1 H2]; subst.
        apply IH in H2. discriminate.
      * split.
        -- intros [= <-]. constructor; [exact Hm | now apply IH].
        -- intros H. inversion H as [|? ? ? ? H1 H2]; subst.
           apply IH in H2. congruence.
    + split; [discriminate|]. intros H. inversion H; congruence.
Qed.

Lemma get_nested_values_items_missing (key : string) (ms : list (list (string * JSON))) :
  Exists (fun m => dict_get key m = None) ms ->
  get_nested_values_items key (map JObj ms) = inl (KeyError key).
Proof.
  induction ms as [|m ms IH]; intros H; [inversion H|].
  simpl. destruct (dict_get key m) as [v|] eqn:Hm; [|reflexivity].
  inversion H as [? ? Hx|? ? Hx]; subst; [congruence|].
  now rewrite (IH Hx).
Qed.

(** X4: on a list of dicts, [get_nested_values] returns the value each dict
    holds under the key, in the order of the list and one per dict; when a
    dict lacks the key it raises [KeyError] for that key and returns no
    partial list; on the empty list it returns the empty list. *)
Theorem get_nested_values_objects (key : string) (ms : list (list (string * JSON))) :
  (forall vs,
     get_nested_values key (JArr (map JObj ms)) = inr vs
     <-> Forall2 (fun m v => dict_get key m = Some v) ms vs)
  /\ (forall vs, get_nested_values key (JArr (map JObj ms)) = inr vs ->
        length vs = length ms)
  /\ (Exists (fun m => dict_get key m = None) ms ->
      get_nested_values key (JArr (map JObj ms)) = inl (KeyError key))
  /\ get_nested_values key (JArr []) = inr [].
Proof.
  split; [|split; [|split]].
  - intros vs. apply get_nested_values_items_objects.
  - intros vs H. apply get_nested_values_items_objects in H.
    symmetry. eapply Forall2_length, H.
  - apply get_nested_values_items_missing.
  - reflexivity.
Qed.

Lemma get_nested_values_objects_witness :
  get_nested_values "name" (JArr (map JObj [[("name", JStr "Id")]; [("label", JStr "Name")]]))
  = inl (KeyError "name").
Proof.
  apply (proj1 (proj2 (proj2 (get_nested_values_objects "name"
                                [[("name", JStr "Id")]; [("label", JStr "Name")]])))).
  apply Exists_cons_tl, Exists_cons_hd. reflexivity.
Defined.

Lemma dict_get_cons (key k : string) (v : JSON) (rest : list (string * JSON)) :
  dict_get key ((k, v) :: rest) = if String.eqb k key then Some v else dict_get key rest.
Proof. reflexivity. Qed.

Lemma dict_get_without_attributes (members : list (string * JSON)) (key : string) :
  dict_get key (without_attributes members)
  = if String.eqb key "attributes" then None else dict_get key members.
Proof.
  unfold without_attributes. induction members as [|[k v] members IH].
  - now destruct (String.eqb key "attributes").
  - rewrite dict_get_cons. destruct (decide (k = "attributes")) as [->|Hk].
    + rewrite filter_cons_False by (simpl; tauto). rewrite IH.
      destruct (String.eqb_spec key "attributes") as [Hkey|Hne]; [reflexivity|].
      destruct (String.eqb_spec "attributes" key) as [Heq|_]; [congruence | reflexivity].
    + rewrite filter_cons_True by exact Hk. rewrite dict_get_cons, IH.
      destruct (String.eqb_spec k key) as [Heq|Hne]; [|reflexivity].
      subst key.
      destruct (String.eqb_spec k "attributes") as [Heq|_]; [congruence | reflexivity].
Qed.

Lemma without_attributes_id (members : list (string * JSON)) :
  dict_get "attributes" members = None -> without_attributes members = members.
Proof.
  unfold without_attributes. induction members as [|[k v] members IH]; [reflexivity|].
  rewrite dict_get_cons.
  destruct (String.eqb_spec k "attributes") as [->|Hk]; [discriminate|].
  intros H. rewrite filter_cons_True by exact Hk. now rewrite IH.
Qed.

(** X5: the record normaliser removes the [attributes] member and nothing
    else: every other key keeps its value, a record without [attributes] is
    returned as it is, and normalising twice is normalising once. *)
Theorem strip_attributes_keeps_the_rest (members : list (string * JSON)) :
  strip_attributes (JObj members) = inr (JObj (without_attributes members))
  /\ dict_get "attributes" (without_attributes members) = None
  /\ (forall key, key <> "attributes" ->
        dict_get key (without_attributes members) = dict_get key members)
  /\ (dict_get "attributes" members = None -> without_attributes members = members)
  /\ without_attributes (without_attributes members) = without_attributes members.
Proof.
  split; [reflexivity|]. split; [now rewrite dict_get_without_attributes|].
  split; [|split].
  - intros key Hk. rewrite dict_get_without_attributes.
    apply String.eqb_neq in Hk. now rewrite Hk.
  - apply without_attributes_id.
  - apply without_attributes_id. now rewrite dict_get_without_attributes.
Qed.

Lemma strip_attributes_keeps_the_rest_witness :
  dict_get "Name" (without_attributes (account_members "001A" "Acme")) = Some (JStr "Acme").
Proof.
  rewrite (proj1 (proj2 (proj2 (strip_attributes_keeps_the_rest
                                  (account_members "001A" "Acme")))) "Name");
    [reflexivity | discriminate].
Defined.

(** X6: the list of records is normalised as a whole or not at all: the
    result is a list exactly when every item is a dict, and then it holds
    the normalised records in the same order; one item that is not a dict
    makes the whole call raise. *)
Theorem strip_all_objects (items : list JSON) :
  (forall out,
     strip_all items = inr out
     <-> exists ms, items = map JObj ms
                    /\ out = map (fun m => JObj (without_attributes m)) ms)
  /\ (forall out, strip_all items = inr out -> length out = length items)
  /\ ((exists d, d ∈ items /\ forall m, d <> JObj m) ->
      exists e, strip_all items = inl e).
Proof.
  assert (Hiff : forall out,
            strip_all items = inr out
            <-> exists ms, items = map JObj ms
                           /\ out = map (fun m => JObj (without_attributes m)) ms).
  { induction items as [|d items IH]; intros out.
    - split.
      + intros [= <-]. exists []. split; reflexivity.
      + intros ([|m ms] & H1 & ->); [reflexivity | discriminate].
    - simpl. split.
      + intros H. destruct d; try discriminate. simpl in H.
        destruct (strip_all items) as [e|ds] eqn:Hs; [discriminate|].
        injection H as <-. destruct (proj1 (IH ds) eq_refl) as (ms & -> & ->).
        exists (members :: ms). split; reflexivity.
      + intros ([|m ms] & H1 & ->); [discriminate|].
        injection H1 as -> ->. simpl.
        rewrite (proj2 (IH _) (ex_intro _ ms (conj eq_refl eq_refl))). reflexivity. }
  split; [exact Hiff|]. split.
  - intros out H. apply Hiff in H as (ms & -> & ->). now rewrite !length_map.
  - intros (d & Hd & Hno). destruct (strip_all items) as [e|out] eqn:Hs; [eauto|].
    destruct (proj1 (Hiff out) eq_refl) as (ms & Hitems & _). subst items.
    apply list_elem_of_fmap in Hd as (m & -> & _). now destruct (Hno m).
Qed.

Lemma strip_all_objects_witness :
  exists e, strip_all [record_A; JStr "001B"; record_C] = inl e.
Proof.
  apply (proj2 (proj2 (strip_all_objects [record_A; JStr "001B"; record_C]))).
  exists (JStr "001B"). split; [set_solver | discriminate].
Defined.

(** ** Where the session id is looked for *)

Lemma elem_of_select_child (tag : string) (result : list Element) (x : Element) :
  x ∈ select (Child tag) result
  <-> exists p, p ∈ result /\ x ∈ elem_children p /\ elem_tag x = tag.
Proof.
  unfold select. rewrite list_elem_of_In, in_flat_map. split.
  - intros (p & Hp & Hx). apply list_elem_of_In, list_elem_of_filter in Hx as [Ht Hx].
    exists p. rewrite list_elem_of_In. auto.
  - intros (p & Hp & Hx & Ht). exists p. rewrite <- !list_elem_of_In.
    split; [exact Hp|]. apply list_elem_of_filter. auto.
Qed.

Lemma elem_of_select_descendant (tag : string) (result : list Element) (x : Element) :
  x ∈ select (Descendant tag) result
  <-> exists p, p ∈ result /\ x ∈ flat_map elem_iter (elem_children p) /\ elem_tag x = tag.
Proof.
  unfold select. rewrite list_elem_of_In, in_flat_map. split.
  - intros (p & Hp & Hx). apply list_elem_of_In, list_elem_of_filter in Hx as [Ht Hx].
    exists p. rewrite list_elem_of_In. auto.
  - intros (p & Hp & Hx & Ht). exists p. rewrite <- !list_elem_of_In.
    split; [exact Hp|]. apply list_elem_of_filter. auto.
Qed.

Lemma elem_of_session_id_path (root e : Element) :
  e ∈ fold_left (fun result st => select st result) session_id_path [root]
  <-> reaches root e.
Proof.
  unfold session_id_path, reaches. cbn [fold_left]. change (select Self [root]) with [root].
  rewrite elem_of_select_child. split.
  - intros (result & Hr & He & Hte).
    apply elem_of_select_child in Hr as (response & Hp & Hr & Htr).
    apply elem_of_select_child in Hp as (body & Hb & Hp & Htp).
    apply elem_of_select_descendant in Hb as (r & Hroot & Hbody & Htb).
    apply list_elem_of_singleton in Hroot as ->.
    exists body, response, result. auto 10.
  - intros (body & response & result & Hb & Htb & Hp & Htp & Hr & Htr & He & Hte).
    exists result. split; [|auto].
    apply elem_of_select_child. exists response. split; [|auto].
    apply elem_of_select_child. exists body. split; [|auto].
    apply elem_of_select_descendant. exists root. split; [constructor | auto].
Qed.

Lemma elem_iter_self (e : Element) : e ∈ elem_iter e.
Proof. destruct e. simpl. set_solver. Qed.

Lemma child_is_descendant (root body : Element) :
  body ∈ elem_children root -> body ∈ flat_map elem_iter (elem_children root).
Proof.
  intros H. apply list_elem_of_In, in_flat_map. exists body.
  rewrite <- !list_elem_of_In. split; [exact H | apply elem_iter_self].
Qed.

(** X7: the search for the session id succeeds exactly when some sessionId
    element is reached through Body, loginResponse and result with the Body
    anywhere below the document element; the element found is reached that
    way; and every document that has the session id at
    Envelope/Body/loginResponse/result/sessionId is among those. *)
Theorem find_session_id_reaches (root : Element) :
  (is_Some (find root session_id_path) <-> exists e, reaches root e)
  /\ (forall e, find root session_id_path = Some e -> reaches root e)
  /\ (is_Some (find_from_envelope root) -> is_Some (find root session_id_path)).
Proof.
  assert (Hfound : forall e, find root session_id_path = Some e -> reaches root e).
  { intros e H. apply elem_of_session_id_path. unfold find in H.
    now apply head_Some_elem_of. }
  assert (Hsome : (exists e, reaches root e) -> is_Some (find root session_id_path)).
  { intros (e & He). apply elem_of_session_id_path in He.
    unfold find. apply head_is_Some. intros Hnil. rewrite Hnil in He. set_solver. }
  split; [|split].
  - split; [|exact Hsome]. intros [e He]. exists e. now apply Hfound.
  - exact Hfound.
  - unfold find_from_envelope. destruct (decide _) as [Henv|]; [|intros [? ?]; discriminate].
    intros [e He]. apply Hsome. exists e.
    unfold find in He. apply head_Some_elem_of in He. cbn [fold_left] in He.
    change (select Self [root]) with [root] in He.
    apply elem_of_select_child in He as (result & Hr & He & Hte).
    apply elem_of_select_child in Hr as (response & Hp & Hr & Htr).
    apply elem_of_select_child in Hp as (body & Hb & Hp & Htp).
    apply elem_of_select_child in Hb as (r & Hroot & Hbody & Htb).
    apply list_elem_of_singleton in Hroot as ->.
    exists body, response, result. split; [now apply child_is_descendant | auto 10].
Qed.

Lemma find_session_id_reaches_witness :
  is_Some (find (login_tree "S1") session_id_path).
Proof.
  apply (proj2 (proj2 (find_session_id_reaches (login_tree "S1")))).
  vm_compute. eexists. reflexivity.
Defined.

(** ** Logging in *)

Section Login.

Variable lib : Library.

Variables base username password security_token : string.

(** X8: when the login is answered with status 200 and a document in which
    the search finds a sessionId element, [get_session_id] returns the text
    of that element, has sent the login request and nothing else, and has
    printed nothing; an element without text gives [None], without the
    warning. *)
Theorem get_session_id_returns_text (w : World) (root e : Element) :
  configured w base username password security_token ->
  status_code (server w (sent w) (login_request base username password security_token))
  = 200 ->
  ET_fromstring lib (text (server w (sent w)
                      (login_request base username password security_token)))
  = Some root ->
  find root session_id_path = Some e ->
  get_session_id lib username password security_token w
  = (inr (elem_text e), sending (login_request base username password security_token) w)
  /\ fetch_session_id lib w
     = (inr (elem_text e), sending (login_request base username password security_token) w)
  /\ stdout (get_session_id lib username password security_token w).2 = stdout w
  /\ sent (get_session_id lib username password security_token w).2
     = sent w ++ [login_request base username password security_token].
Proof.
  intros Hc Hs Hroot Hfind.
  assert (Hrun : get_session_id lib username password security_token w
                 = (inr (elem_text e),
                    sending (login_request base username password security_token) w)).
  { rewrite (get_session_id_run lib base username password security_token w Hc).
    cbv zeta. rewrite Hs. cbn [negb Z.eqb Pos.eqb]. cbv iota.
    rewrite extract_session_id_run, Hroot, Hfind. reflexivity. }
  split; [exact Hrun|]. split.
  - now rewrite (fetch_session_id_run lib base username password security_token w Hc).
  - rewrite Hrun. split; reflexivity.
Qed.

(** X9: when the login is answered with status 200 and a body that is not
    well-formed XML, the parse error of the XML parser escapes from the
    login, from the data query and from the describe request: only the
    login request has been sent, and no warning is printed. *)
Theorem malformed_login_raises_parse_error (depth : nat) (query object_name : string)
    (w : World) :
  configured w base username password security_token ->
  status_code (server w (sent w) (login_request base username password security_token))
  = 200 ->
  ET_fromstring lib (text (server w (sent w)
                      (login_request base username password security_token)))
  = None ->
  get_session_id lib username password security_token w
  = (inl ParseError, sending (login_request base username password security_token) w)
  /\ (forall next_url,
        next_url = JNull \/ (exists cursor, next_url = JStr cursor) ->
        get_rest_query_results lib (S depth) query next_url w
        = (inl ParseError,
           sending (login_request base username password security_token) w))
  /\ get_field_names lib object_name w
     = (inl ParseError, sending (login_request base username password security_token) w).
Proof.
  intros Hc Hs Hroot.
  assert (Hrun : fetch_session_id lib w
                 = (inl ParseError,
                    sending (login_request base username password security_token) w)).
  { rewrite (fetch_session_id_run lib base username password security_token w Hc).
    rewrite (get_session_id_run lib base username password security_token w Hc).
    cbv zeta. rewrite Hs. cbn [negb Z.eqb Pos.eqb]. cbv iota.
    rewrite extract_session_id_run, Hroot. reflexivity. }
  split; [|split].
  - now rewrite <- (fetch_session_id_run lib base username password
                      security_token w Hc).
  - intros next_url Hn. cbn [get_rest_query_results].
    assert (Ht : exists target,
               (next_url = JNull /\ target = first_page_url base query)
               \/ (exists c, next_url = JStr c /\ target = base +:+ c)).
    { destruct Hn as [->|[c ->]]; eexists; [left | right; eexists]; split; reflexivity. }
    destruct Ht as [target Ht].
    rewrite (bind_inr _ _ _ _ _
               (target_run lib base username password security_token query next_url
                  target w Hc Ht)).
    unfold bind at 1. rewrite Hrun. reflexivity.
  - unfold get_field_names. destruct Hc as (Hb & Hrest).
    rewrite (bind_inr _ _ _ _ _ (environ_get_some _ _ _ Hb)).
    unfold bind at 1. rewrite Hrun. reflexivity.
Qed.

End Login.

Lemma get_session_id_returns_text_witness :
  get_session_id demo_library "user@example.com" "p<ss" "t&k" (demo_world paged_server)
  = (inr (Some "S1"), sending demo_login (demo_world paged_server)).
Proof.
  apply (get_session_id_returns_text demo_library demo_base "user@example.com"
           "p<ss" "t&k" (demo_world paged_server) (login_tree "S1")
           (Elem (clark ns "sessionId") (Some "S1") [])).
  - apply demo_configured.
  - reflexivity.
  - vm_compute. reflexivity.
  - vm_compute. reflexivity.
Defined.

Lemma malformed_login_raises_parse_error_witness :
  get_rest_query_results demo_library 1 demo_query JNull (demo_world garbled_server)
  = (inl ParseError, sending demo_login (demo_world garbled_server)).
Proof.
  apply (malformed_login_raises_parse_error demo_library demo_base "user@example.com"
           "p<ss" "t&k" 0 demo_query "Account" (demo_world garbled_server)).
  - apply demo_configured.
  - reflexivity.
  - vm_compute. reflexivity.
  - left. reflexivity.
Defined.

(** ** Configuration *)

Lemma get_credentials_missing (lib : Library) (integration : string) (w : World) :
  (environ w !! (upper lib integration +:+ "_PASSWORD") = None ->
   get_credentials lib integration w
   = (inl (KeyError (upper lib integration +:+ "_PASSWORD")), w))
  /\ (is_Some (environ w !! (upper lib integration +:+ "_PASSWORD")) ->
      environ w !! (upper lib integration +:+ "_USERNAME") = None ->
      get_credentials lib integration w
      = (inl (KeyError (upper lib integration +:+ "_USERNAME")), w))
  /\ (is_Some (environ w !! (upper lib integration +:+ "_PASSWORD")) ->
      is_Some (environ w !! (upper lib integration +:+ "_USERNAME")) ->
      environ w !! (upper lib integration +:+ "_SECURITY_TOKEN") = None ->
      get_credentials lib integration w
      = (inl (KeyError (upper lib integration +:+ "_SECURITY_TOKEN")), w)).
Proof.
  unfold get_credentials, bind, environ_get, ret.
  destruct (environ w !! (upper lib integration +:+ "_PASSWORD")) as [pw|];
  destruct (environ w !! (upper lib integration +:+ "_USERNAME")) as [us|];
  destruct (environ w !! (upper lib integration +:+ "_SECURITY_TOKEN")) as [tk|];
    simpl; repeat split;
    try (intros; discriminate); try (intros [? ?]; discriminate);
    try (intros [? ?] [? ?]; discriminate); try reflexivity;
    try (intros ? [? ?] ?; discriminate).
Qed.

(** X10: [get_credentials] reports the first missing key in the order
    password, username, security token, and a mapping it returns has exactly
    the three entries named after the integration as the caller wrote it
    (not uppercased). *)
Theorem get_credentials_order (lib : Library) (integration : string) (w : World) :
  (environ w !! (upper lib integration +:+ "_PASSWORD") = None ->
   get_credentials lib integration w
   = (inl (KeyError (upper lib integration +:+ "_PASSWORD")), w))
  /\ (is_Some (environ w !! (upper lib integration +:+ "_PASSWORD")) ->
      environ w !! (upper lib integration +:+ "_USERNAME") = None ->
      get_credentials lib integration w
      = (inl (KeyError (upper lib integration +:+ "_USERNAME")), w))
  /\ (is_Some (environ w !! (upper lib integration +:+ "_PASSWORD")) ->
      is_Some (environ w !! (upper lib integration +:+ "_USERNAME")) ->
      environ w !! (upper lib integration +:+ "_SECURITY_TOKEN") = None ->
      get_credentials lib integration w
      = (inl (KeyError (upper lib integration +:+ "_SECURITY_TOKEN")), w))
  /\ (forall credentials : gmap string string,
        (get_credentials lib integration w).1 = inr credentials ->
        dom credentials
        = {[ integration +:+ "_password"; integration +:+ "_username";
             integration +:+ "_security_token" ]}).
Proof.
  destruct (get_credentials_missing lib integration w) as (H1 & H2 & H3).
  split; [exact H1|]. split; [exact H2|]. split; [exact H3|].
  unfold get_credentials, bind, environ_get, ret.
  destruct (environ w !! (upper lib integration +:+ "_PASSWORD")) as [pw|];
  destruct (environ w !! (upper lib integration +:+ "_USERNAME")) as [us|];
  destruct (environ w !! (upper lib integration +:+ "_SECURITY_TOKEN")) as [tk|];
    simpl; try (intros; discriminate).
  intros credentials [= <-]. rewrite !dom_insert_L, dom_empty_L.
  apply set_eq. intros x. rewrite !elem_of_union, !elem_of_singleton, elem_of_empty. tauto.
Qed.

Lemma get_credentials_order_witness :
  get_credentials demo_library "salesforce" tokenless_world
  = (inl (KeyError (upper demo_library "salesforce" +:+ "_SECURITY_TOKEN")), tokenless_world).
Proof.
  apply (get_credentials_order demo_library "salesforce" tokenless_world).
  - vm_compute. eexists. reflexivity.
  - vm_compute. eexists. reflexivity.
  - vm_compute. reflexivity.
Defined.

Lemma fetch_session_id_missing (lib : Library) (w : World) :
  (environ w !! "SALESFORCE_PASSWORD" = None ->
   fetch_session_id lib w = (inl (KeyError "SALESFORCE_PASSWORD"), w))
  /\ (is_Some (environ w !! "SALESFORCE_PASSWORD") ->
      environ w !! "SALESFORCE_USERNAME" = None ->
      fetch_session_id lib w = (inl (KeyError "SALESFORCE_USERNAME"), w))
  /\ (is_Some (environ w !! "SALESFORCE_PASSWORD") ->
      is_Some (environ w !! "SALESFORCE_USERNAME") ->
      environ w !! "SALESFORCE_SECURITY_TOKEN" = None ->
      fetch_session_id lib w = (inl (KeyError "SALESFORCE_SECURITY_TOKEN"), w)).
Proof.
  destruct (get_credentials_missing lib "salesforce" w) as (H1 & H2 & H3).
  change (upper lib "salesforce" +:+ "_PASSWORD") with "SALESFORCE_PASSWORD" in *.
  change (upper lib "salesforce" +:+ "_USERNAME") with "SALESFORCE_USERNAME" in *.
  change (upper lib "salesforce" +:+ "_SECURITY_TOKEN") with "SALESFORCE_SECURITY_TOKEN" in *.
  unfold fetch_session_id. repeat split; intros; unfold bind at 1;
    [rewrite H1 | rewrite H2 | rewrite H3]; auto.
Qed.

(** X11: when one of the four configuration keys is missing, the describe
    request, the data query and the public entry point raise [KeyError] for
    the first missing key in the order URL, password, username, security
    token, and no request is sent: the world is left as it was. *)
Theorem missing_configuration_sends_nothing (lib : Library)
    (depth : nat) (object_name : string) (fields : option (list string))
    (limit : option Z) (w : World) :
  (exists key, key ∈ configuration_keys /\ environ w !! key = None) ->
  exists key,
    key ∈ configuration_keys /\ environ w !! key = None
    /\ get_field_names lib object_name w = (inl (KeyError key), w)
    /\ (forall query next_url,
          next_url = JNull \/ (exists cursor, next_url = JStr cursor) ->
          get_rest_query_results lib (S depth) query next_url w
          = (inl (KeyError key), w))
    /\ get_records_list lib (S depth) object_name fields limit w
       = (inl (KeyError key), w).
Proof.
  intros (k0 & Hk0 & Hnone0).
  assert (Hfirst : exists key,
            key ∈ configuration_keys /\ environ w !! key = None
            /\ (environ w !! "SALESFORCE_URL" = None /\ key = "SALESFORCE_URL"
                \/ is_Some (environ w !! "SALESFORCE_URL")
                   /\ fetch_session_id lib w = (inl (KeyError key), w))).
  { destruct (fetch_session_id_missing lib w) as (H1 & H2 & H3).
    unfold configuration_keys in *.
    destruct (environ w !! "SALESFORCE_URL") as [b|] eqn:Hb.
    2: { exists "SALESFORCE_URL". split; [constructor|]. split; auto. }
    destruct (environ w !! "SALESFORCE_PASSWORD") as [p|] eqn:Hp.
    2: { exists "SALESFORCE_PASSWORD". split; [do 1 constructor; constructor|].
         split; [exact Hp|]. right. split; [eauto | auto]. }
    destruct (environ w !! "SALESFORCE_USERNAME") as [u|] eqn:Hu.
    2: { exists "SALESFORCE_USERNAME". split; [do 2 constructor; constructor|].
         split; [exact Hu|]. right. split; [eauto | apply H2; eauto]. }
    destruct (environ w !! "SALESFORCE_SECURITY_TOKEN") as [t|] eqn:Ht.
    2: { exists "SALESFORCE_SECURITY_TOKEN". split; [do 3 constructor; constructor|].
         split; [exact Ht|]. right. split; [eauto | apply H3; eauto]. }
    exfalso.
    repeat (apply elem_of_cons in Hk0 as [->|Hk0]); try congruence. inversion Hk0. }
  destruct Hfirst as (key & Hkey & Hnone & Hcase).
  assert (Hdescribe : get_field_names lib object_name w = (inl (KeyError key), w)).
  { unfold get_field_names. destruct Hcase as [(Hb & ->)|([b Hb] & Hf)].
    - unfold bind at 1, environ_get. now rewrite Hb.
    - rewrite (bind_inr _ _ _ _ _ (environ_get_some _ _ _ Hb)).
      unfold bind at 1. now rewrite Hf. }
  assert (Hquery : forall query next_url,
            next_url = JNull \/ (exists cursor, next_url = JStr cursor) ->
            get_rest_query_results lib (S depth) query next_url w
            = (inl (KeyError key), w)).
  { intros query next_url Hn. cbn [get_rest_query_results].
    destruct Hcase as [(Hb & ->)|([b Hb] & Hf)].
    - destruct Hn as [->|[c ->]]; unfold bind, environ_get; now rewrite Hb.
    - match goal with
      | |- bind ?c _ w = _ =>
          assert (Hurl : exists target, c w = (inr target, w))
            by (destruct Hn as [->|[c0 ->]]; unfold bind;
                rewrite (environ_get_some _ _ _ Hb); eexists; reflexivity)
      end.
      destruct Hurl as [target Hurl]. rewrite (bind_inr _ _ _ _ _ Hurl).
      unfold bind at 1. now rewrite Hf. }
  exists key. split; [exact Hkey|]. split; [exact Hnone|].
  split; [exact Hdescribe|]. split; [exact Hquery|].
  unfold get_records_list.
  destruct (negb (truthy_fields fields) && negb (truthy_limit limit))%bool eqn:Ht.
  - unfold bind at 1. unfold bind at 1. now rewrite Hdescribe.
  - unfold bind at 1, ret at 1. unfold get_query. rewrite Ht.
    unfold bind at 1, lift at 1. unfold bind at 1.
    rewrite Hquery by (left; reflexivity). reflexivity.
Qed.

Lemma missing_configuration_sends_nothing_witness :
  exists key,
    environ tokenless_world !! key = None
    /\ get_records_list demo_library 1 "Account" None None tokenless_world
       = (inl (KeyError key), tokenless_world).
Proof.
  destruct (missing_configuration_sends_nothing demo_library 0 "Account" None None
              tokenless_world) as (key & _ & Hnone & _ & _ & Hrun).
  - exists "SALESFORCE_SECURITY_TOKEN". split; [do 3 constructor; constructor|].
    vm_compute. reflexivity.
  - exists key. split; [exact Hnone | exact Hrun].
Defined.

(** ** Pages and field discovery *)

Section Pages.

Variable lib : Library.

Variables base username password security_token : string.

(** The login and the GET of a page, up to the answer of the GET. *)
Lemma page_step (depth : nat) (query : string) (next_url : JSON) (target : string)
    (w : World) :
  configured w base username password security_token ->
  (next_url = JNull /\ target = first_page_url base query)
  \/ (exists c, next_url = JStr c /\ target = base +:+ c) ->
  login_ok lib
    (server w (sent w) (login_request base username password security_token)) ->
  sent (page_world lib target w)
  = sent w ++ [login_request base username password security_token;
               query_request target
                 (session_of lib
                    (server w (sent w)
                       (login_request base username password security_token)))]
  /\ environ (page_world lib target w) = environ w
  /\ server (page_world lib target w) = server w
  /\ forall response,
       response
       = server w (sent w ++ [login_request base username password security_token])
           (query_request target
              (session_of lib
                 (server w (sent w)
                    (login_request base username password security_token)))) ->
       status_code response = 200 ->
       get_rest_query_results lib (S depth) query next_url w
       = match json response with
         | None => (inl JSONDecodeError, page_world lib target w)
         | Some (JObj members) =>
             match dict_get "nextRecordsUrl" members with
             | Some cursor =>
                 bind (get_rest_query_results lib depth query cursor)
                   (fun next_records =>
                      lift (extend (default (JArr []) (dict_get "records" members))
                              next_records))
                   (page_world lib target w)
             | None =>
                 (inr (default (JArr []) (dict_get "records" members)),
                  page_world lib target w)
             end
         | Some _ => (inl (AttributeError "get"), page_world lib target w)
         end.
Proof.
  intros Hc Ht Hl.
  destruct (login_run lib base username password security_token w Hc Hl)
    as (w1 & Hrun & Hsent & Henv & Hsrv).
  unfold page_world. rewrite Hrun.
  split; [simpl; rewrite Hsent, <- app_assoc; reflexivity|].
  split; [exact Henv|]. split; [exact Hsrv|].
  intros response -> Hs.
  cbn [get_rest_query_results].
  rewrite (bind_inr _ _ _ _ _
             (target_run lib base username password security_token query next_url target
                w Hc Ht)).
  rewrite (bind_inr _ _ _ _ _ Hrun).
  unfold requests_get.
  fold (query_request target
          (session_of lib
             (server w (sent w) (login_request base username password security_token)))).
  unfold bind at 1, http at 1.
  rewrite Hsrv, Hsent, Hs. cbn [negb Z.eqb Pos.eqb]. cbv iota.
  unfold bind at 1, response_json.
  destruct (json _) as [data|]; [|reflexivity].
  unfold ret at 1. destruct data; try reflexivity.
  destruct (dict_get "nextRecordsUrl" members); reflexivity.
Qed.

(** X12: a page answered with status 200 whose body does not decode as JSON
    makes the query raise the decoder's error, and one whose JSON is not an
    object makes it raise [AttributeError]; both after the login and the GET
    of that page have been sent. *)
Theorem undecodable_page_raises (depth : nat) (query : string) (next_url : JSON)
    (target : string) (w : World) :
  configured w base username password security_token ->
  (next_url = JNull /\ target = first_page_url base query)
  \/ (exists c, next_url = JStr c /\ target = base +:+ c) ->
  login_ok lib
    (server w (sent w) (login_request base username password security_token)) ->
  status_code
    (server w (sent w ++ [login_request base username password security_token])
       (query_request target
          (session_of lib
             (server w (sent w) (login_request base username password security_token)))))
  = 200 ->
  sent (page_world lib target w)
  = sent w ++ [login_request base username password security_token;
               (query_request target
          (session_of lib
             (server w (sent w) (login_request base username password security_token))))]
  /\ (json
        (server w (sent w ++ [login_request base username password security_token])
           (query_request target
          (session_of lib
             (server w (sent w) (login_request base username password security_token)))))
      = None ->
      get_rest_query_results lib (S depth) query next_url w
      = (inl JSONDecodeError, page_world lib target w))
  /\ (forall data,
        json
          (server w (sent w ++ [login_request base username password security_token])
             (query_request target
          (session_of lib
             (server w (sent w) (login_request base username password security_token)))))
        = Some data ->
        (forall members, data <> JObj members) ->
        get_rest_query_results lib (S depth) query next_url w
        = (inl (AttributeError "get"), page_world lib target w)).
Proof.
  intros Hc Ht Hl Hs.
  destruct (page_step depth query next_url target w Hc Ht Hl)
    as (Hsent & _ & _ & Hrun).
  split; [exact Hsent|]. split.
  - intros Hj. rewrite (Hrun _ eq_refl Hs), Hj. reflexivity.
  - intros data Hj Hno. rewrite (Hrun _ eq_refl Hs), Hj.
    destruct data; try reflexivity. now destruct (Hno members).
Qed.

(** X13: a page whose [nextRecordsUrl] is null does not end the
    pagination: the query goes on as a call without cursor does, with the
    first page of the query, and appends what that returns. *)
Theorem null_cursor_restarts (depth : nat) (query : string) (next_url : JSON)
    (target : string) (records : list JSON) (members : list (string * JSON))
    (w : World) :
  configured w base username password security_token ->
  (next_url = JNull /\ target = first_page_url base query)
  \/ (exists c, next_url = JStr c /\ target = base +:+ c) ->
  login_ok lib
    (server w (sent w) (login_request base username password security_token)) ->
  status_code
    (server w (sent w ++ [login_request base username password security_token])
       (query_request target
          (session_of lib
             (server w (sent w) (login_request base username password security_token)))))
  = 200 ->
  json
    (server w (sent w ++ [login_request base username password security_token])
       (query_request target
          (session_of lib
             (server w (sent w) (login_request base username password security_token)))))
  = Some (JObj members) ->
  dict_get "records" members = Some (JArr records) ->
  dict_get "nextRecordsUrl" members = Some JNull ->
  get_rest_query_results lib (S depth) query next_url w
  = bind (get_rest_query_results lib depth query JNull)
      (fun next_records => lift (extend (JArr records) next_records))
      (page_world lib target w).
Proof.
  intros Hc Ht Hl Hs Hj Hr Hn.
  destruct (page_step depth query next_url target w Hc Ht Hl)
    as (_ & _ & _ & Hrun).
  rewrite (Hrun _ eq_refl Hs), Hj, Hn, Hr. reflexivity.
Qed.

(** X14: an exception raised while a later page is fetched is the result of
    the whole query: the records of the pages before it are not returned. *)
Theorem later_exception_discards_records (depth : nat) (query : string) (next_url : JSON)
    (target : string) (records : list JSON) (cursor : string) (w : World) :
  configured w base username password security_token ->
  (next_url = JNull /\ target = first_page_url base query)
  \/ (exists c, next_url = JStr c /\ target = base +:+ c) ->
  login_ok lib
    (server w (sent w) (login_request base username password security_token)) ->
  page_of
    (server w (sent w ++ [login_request base username password security_token])
       (query_request target
          (session_of lib
             (server w (sent w) (login_request base username password security_token)))))
    records (Some cursor) ->
  forall e w',
    get_rest_query_results lib depth query (JStr cursor)
      (page_world lib target w) = (inl e, w') ->
    get_rest_query_results lib (S depth) query next_url w = (inl e, w').
Proof.
  intros Hc Ht Hl (Hs & members & Hj & _ & Hn) e w' He.
  destruct (page_step depth query next_url target w Hc Ht Hl)
    as (_ & _ & _ & Hrun).
  rewrite (Hrun _ eq_refl Hs), Hj, Hn. simpl. unfold bind. now rewrite He.
Qed.

(** X15: when the describe request is answered with status 200 and a JSON
    object whose [fields] member is a list of dicts, [get_field_names]
    returns the [name] of each dict in the order of the list; when the
    object has no [fields] member it raises [KeyError]; in both cases after
    one login and one GET to the describe URL of the object. *)
Theorem get_field_names_returns_names (object_name : string)
    (members : list (string * JSON)) (w : World) :
  configured w base username password security_token ->
  login_ok lib
    (server w (sent w) (login_request base username password security_token)) ->
  status_code
    (server w (sent w ++ [login_request base username password security_token])
       (describe_request base object_name
          (session_of lib
             (server w (sent w) (login_request base username password security_token)))))
  = 200 ->
  json
    (server w (sent w ++ [login_request base username password security_token])
       (describe_request base object_name
          (session_of lib
             (server w (sent w) (login_request base username password security_token)))))
  = Some (JObj members) ->
  sent (describe_world lib base object_name w)
  = sent w ++ [login_request base username password security_token;
               describe_request base object_name
                 (session_of lib
                    (server w (sent w)
                       (login_request base username password security_token)))]
  /\ (forall (descriptions : list (list (string * JSON))) (names : list JSON),
        dict_get "fields" members = Some (JArr (map JObj descriptions)) ->
        Forall2 (fun d v => dict_get "name" d = Some v) descriptions names ->
        get_field_names lib object_name w
        = (inr names, describe_world lib base object_name w))
  /\ (dict_get "fields" members = None ->
      get_field_names lib object_name w
      = (inl (KeyError "fields"), describe_world lib base object_name w)).
Proof.
  intros Hc Hl Hs Hj.
  destruct (login_run lib base username password security_token w Hc Hl)
    as (w1 & Hrun & Hsent & Henv & Hsrv).
  assert (Hstep : get_field_names lib object_name w
                  = bind (lift (subscript_key "fields" (JObj members)))
                      (fun fields => lift (get_nested_values "name" fields))
                      (describe_world lib base object_name w)).
  { unfold get_field_names, describe_world. destruct Hc as (Hb & _).
    rewrite (bind_inr _ _ _ _ _ (environ_get_some _ _ _ Hb)).
    rewrite (bind_inr _ _ _ _ _ Hrun). rewrite Hrun.
    unfold requests_get.
    fold (describe_url base object_name).
    fold (describe_request base object_name
            (session_of lib
               (server w (sent w)
                  (login_request base username password security_token)))).
    unfold bind at 1, http at 1.
    rewrite Hsrv, Hsent, Hs. cbn [negb Z.eqb Pos.eqb]. cbv iota.
    unfold bind at 1, response_json. rewrite Hj. reflexivity. }
  split; [|split].
  - unfold describe_world. rewrite Hrun. simpl. rewrite Hsent, <- app_assoc. reflexivity.
  - intros descriptions names Hf Hn. rewrite Hstep.
    unfold bind, lift, subscript_key. rewrite Hf.
    apply get_nested_values_items_objects in Hn.
    unfold get_nested_values. cbn [py_iter]. now rewrite Hn.
  - intros Hf. rewrite Hstep. unfold bind, lift, subscript_key. now rewrite Hf.
Qed.

(** X16: with neither fields nor limit the public entry point asks for the
    field names first and goes on from the world the describe request left:
    names that are not all strings raise [TypeError], an empty list of names
    raises the error of the query builder, and otherwise the data query is
    the explicit-field query over the discovered names, without a LIMIT
    clause. *)
Theorem discovery_feeds_query (depth : nat) (object_name : string) (names : list JSON)
    (w w1 : World) :
  get_field_names lib object_name w = (inr names, w1) ->
  get_records_list lib depth object_name None None w
  = match as_strings names with
    | inl e => (inl e, w1)
    | inr [] => (inl invalid_query, w1)
    | inr (name :: more) =>
        (raw_results <- get_rest_query_results lib depth
                          ("queryAll/?q=SELECT+" +:+ join "," (name :: more)
                           +:+ "+FROM+" +:+ object_name) JNull ;;
         items <- lift (py_iter raw_results) ;;
         lift (strip_all items)) w1
    end.
Proof.
  intros Hd. unfold get_records_list. cbn [truthy_fields truthy_limit negb andb].
  unfold bind at 1. unfold bind at 1. rewrite Hd.
  unfold bind at 1, lift at 1.
  destruct (as_strings names) as [e|[|name more]]; [reflexivity | reflexivity |].
  unfold ret at 1. unfold bind at 1, lift at 1.
  rewrite get_query_returns by reflexivity.
  cbn [truthy_fields truthy_limit default]. cbv iota.
  rewrite append_nil_r. reflexivity.
Qed.

End Pages.

(** ** What is printed *)

Lemma warns_quiet {A} (c : M A) : (forall w, stdout (c w).2 = stdout w) -> warns_only c.
Proof. intros H w. exists 0%nat. rewrite H. simpl. now rewrite app_nil_r. Qed.

Lemma warns_bind {A B} (c : M A) (k : A -> M B) :
  warns_only c -> (forall a, warns_only (k a)) -> warns_only (bind c k).
Proof.
  intros Hc Hk w. destruct (Hc w) as [n Hn]. unfold bind.
  destruct (c w) as [[e|a] w1]; [exists n; exact Hn|].
  destruct (Hk a w1) as [m Hm]. exists (n + m)%nat.
  simpl in Hn. rewrite Hm, Hn, replicate_add, app_assoc. reflexivity.
Qed.

Lemma warns_ret {A} (a : A) : warns_only (ret a).
Proof. now apply warns_quiet. Qed.

Lemma warns_raise {A} (e : PyExn) : warns_only (@raise A e).
Proof. now apply warns_quiet. Qed.

Lemma warns_lift {A} (r : PyExn + A) : warns_only (lift r).
Proof. now apply warns_quiet. Qed.

Lemma warns_http (rq : Request) : warns_only (http rq).
Proof. now apply warns_quiet. Qed.

Lemma warns_environ_get (key : string) : warns_only (environ_get key).
Proof.
  apply warns_quiet. intros w. unfold environ_get. now destruct (environ w !! key).
Qed.

Lemma warns_dict_item (d : gmap string string) (key : string) :
  warns_only (dict_item d key).
Proof. apply warns_quiet. intros w. unfold dict_item. now destruct (d !! key). Qed.

Lemma warns_response_json (response : Response) : warns_only (response_json response).
Proof.
  apply warns_quiet. intros w. unfold response_json. now destruct (json response).
Qed.

Lemma warns_fetch_session_id (lib : Library) :
  warns_only (fetch_session_id lib).
Proof.
  unfold fetch_session_id, get_credentials.
  repeat (apply warns_bind; [first [apply warns_environ_get | apply warns_dict_item
                                    | apply warns_ret] | intros ?]).
  apply warns_bind.
  { repeat (apply warns_bind; [apply warns_environ_get | intros ?]). apply warns_ret. }
  intros credentials.
  repeat (apply warns_bind; [apply warns_dict_item | intros ?]).
  unfold get_session_id, get_url.
  apply warns_bind.
  { apply warns_bind; [apply warns_environ_get | intros ?; apply warns_ret]. }
  intros u. apply warns_bind; [apply warns_http | intros response].
  destruct (negb _); [apply warns_raise|].
  unfold extract_session_id.
  destruct (ET_fromstring lib (text response)) as [root|]; [|apply warns_raise].
  destruct (find root session_id_path); [apply warns_ret|].
  apply warns_bind; [|intros ?; apply warns_ret].
  intros w. exists 1%nat. reflexivity.
Qed.

Lemma warns_get_rest_query_results (lib : Library) (depth : nat) :
  forall query next_url,
    warns_only (get_rest_query_results lib depth query next_url).
Proof.
  induction depth as [|depth IH]; intros query next_url; [apply warns_raise|].
  cbn [get_rest_query_results].
  apply warns_bind.
  { destruct next_url;
      (apply warns_bind; [apply warns_environ_get | intros ?]);
      first [ apply warns_ret
            | apply warns_bind; [apply warns_lift | intros ?; apply warns_ret] ]. }
  intros u. apply warns_bind; [apply warns_fetch_session_id | intros session_id].
  apply warns_bind; [apply warns_http | intros response].
  destruct (negb _); [apply warns_raise|].
  apply warns_bind; [apply warns_response_json | intros data].
  destruct data; try apply warns_raise.
  destruct (dict_get "nextRecordsUrl" members); [|apply warns_ret].
  apply warns_bind; [apply IH | intros ?; apply warns_lift].
Qed.

(** X17: the only thing the client ever prints is the warning that no
    session id was found: after a call of the public entry point, of the
    data query or of the describe request, the output is what it was before
    followed by some number of copies of that warning. *)
Theorem prints_only_the_warning (lib : Library) (depth : nat)
    (object_name query : string) (fields : option (list string)) (limit : option Z)
    (next_url : JSON) (w : World) :
  (exists n,
     stdout (get_records_list lib depth object_name fields limit w).2
     = stdout w ++ replicate n session_id_warning)
  /\ (exists n,
        stdout (get_rest_query_results lib depth query next_url w).2
        = stdout w ++ replicate n session_id_warning)
  /\ (exists n,
        stdout (get_field_names lib object_name w).2
        = stdout w ++ replicate n session_id_warning).
Proof.
  assert (Hd : warns_only (get_field_names lib object_name)).
  { unfold get_field_names.
    apply warns_bind; [apply warns_environ_get | intros b].
    apply warns_bind; [apply warns_fetch_session_id | intros session_id].
    apply warns_bind; [apply warns_http | intros response].
    destruct (negb _); [apply warns_raise|].
    apply warns_bind; [apply warns_response_json | intros data].
    apply warns_bind; [apply warns_lift | intros ?; apply warns_lift]. }
  split; [|split].
  - revert w. change (warns_only (get_records_list lib depth object_name fields limit)).
    unfold get_records_list.
    apply warns_bind.
    { destruct (_ && _)%bool; [|apply warns_ret].
      apply warns_bind; [exact Hd | intros names].
      apply warns_bind; [apply warns_lift | intros ?; apply warns_ret]. }
    intros fields'. apply warns_bind; [apply warns_lift | intros q].
    apply warns_bind; [apply warns_get_rest_query_results | intros raw].
    apply warns_bind; [apply warns_lift | intros ?; apply warns_lift].
  - apply warns_get_rest_query_results.
  - apply Hd.
Qed.

(** ** The further properties on concrete worlds *)

Lemma demo_login_ok (srv : Server) :
  srv [] demo_login = ok_login "S1" ->
  login_ok demo_library
    (server (demo_world srv) (sent (demo_world srv))
       (login_request demo_base "user@example.com" "p<ss" "t&k")).
Proof.
  intros H. change (srv [] demo_login = ok_login "S1") in H. simpl. 
  change (login_request demo_base "user@example.com" "p<ss" "t&k") with demo_login.
  rewrite H. split; [reflexivity|]. vm_compute. eexists. reflexivity.
Qed.

Lemma undecodable_page_raises_witness :
  get_rest_query_results demo_library 1 demo_query JNull (demo_world html_server)
  = (inl JSONDecodeError,
     page_world demo_library (first_page_url demo_base demo_query)
       (demo_world html_server)).
Proof.
  apply (undecodable_page_raises demo_library demo_base "user@example.com" "p<ss"
           "t&k" 0 demo_query JNull (first_page_url demo_base demo_query)
           (demo_world html_server)).
  - apply demo_configured.
  - left. split; reflexivity.
  - apply demo_login_ok. reflexivity.
  - reflexivity.
  - reflexivity.
Defined.

Lemma null_cursor_restarts_witness :
  get_rest_query_results demo_library 2 demo_query JNull (demo_world null_cursor_server)
  = bind (get_rest_query_results demo_library 1 demo_query JNull)
      (fun next_records => lift (extend (JArr [record_A]) next_records))
      (page_world demo_library (first_page_url demo_base demo_query)
         (demo_world null_cursor_server)).
Proof.
  apply (null_cursor_restarts demo_library demo_base "user@example.com" "p<ss"
           "t&k" 1 demo_query JNull (first_page_url demo_base demo_query) [record_A]
           [("nextRecordsUrl", JNull); ("records", JArr [record_A])]
           (demo_world null_cursor_server)).
  - apply demo_configured.
  - left. split; reflexivity.
  - apply demo_login_ok. reflexivity.
  - reflexivity.
  - reflexivity.
  - reflexivity.
  - reflexivity.
Defined.

Example null_cursor_requests_first_page_again :
  let out := get_rest_query_results demo_library 2 demo_query JNull
               (demo_world null_cursor_server) in
  out.1 = inr (JArr [record_A; record_C])
  /\ url <$> (sent out.2 !! 1%nat) = Some (first_page_url demo_base demo_query)
  /\ url <$> (sent out.2 !! 3%nat) = Some (first_page_url demo_base demo_query).
Proof. vm_compute. repeat split. Qed.

Lemma later_exception_discards_records_witness :
  (get_rest_query_results demo_library 2 demo_query JNull (demo_world failing_server)).1
  = inl (Exception
           (failure_message query_failed
              {| status_code := 500; text := "boom"; json := None |})).
Proof.
  rewrite (later_exception_discards_records demo_library demo_base "user@example.com"
             "p<ss" "t&k" 1 demo_query JNull (first_page_url demo_base demo_query)
             [record_A; record_B] "/cursor2" (demo_world failing_server)
             (demo_configured failing_server)
             (or_introl (conj eq_refl eq_refl))
             (demo_login_ok failing_server eq_refl)
             (conj eq_refl
                (ex_intro _ _ (conj eq_refl (conj (or_introl eq_refl) eq_refl))))
             (Exception
                (failure_message query_failed
                   {| status_code := 500; text := "boom"; json := None |}))
             (get_rest_query_results demo_library 1 demo_query (JStr "/cursor2")
                (page_world demo_library (first_page_url demo_base demo_query)
                   (demo_world failing_server))).2).
  - reflexivity.
  - vm_compute. reflexivity.
Defined.

Lemma get_field_names_returns_names_witness :
  get_field_names demo_library "Account" (demo_world describing_server)
  = (inr [JStr "Id"; JStr "Name"],
     describe_world demo_library demo_base "Account" (demo_world describing_server)).
Proof.
  apply (proj1 (proj2 (get_field_names_returns_names demo_library demo_base
                         "user@example.com" "p<ss" "t&k" "Account"
                         [("fields", JArr [JObj [("name", JStr "Id")];
                                           JObj [("name", JStr "Name")]])]
                         (demo_world describing_server)
                         (demo_configured describing_server)
                         (demo_login_ok describing_server eq_refl)
                         eq_refl eq_refl))
           [[("name", JStr "Id")]; [("name", JStr "Name")]]).
  - reflexivity.
  - repeat constructor.
Defined.

Lemma discovery_feeds_query_witness :
  (get_records_list demo_library 1 "Account" None None (demo_world describing_server)).1
  = inr [clean_account "001C" "Cask"].
Proof.
  rewrite (discovery_feeds_query demo_library 1 "Account" [JStr "Id"; JStr "Name"]
             (demo_world describing_server)
             (get_field_names demo_library "Account" (demo_world describing_server)).2).
  - vm_compute. reflexivity.
  - vm_compute. reflexivity.
Defined.

Example empty_discovery_is_an_invalid_query :
  let out := get_records_list demo_library 1 "Account" None None
               (demo_world fieldless_server) in
  out.1 = inl invalid_query /\ length (sent out.2) = 2%nat.
Proof. vm_compute. split; reflexivity. Qed.

(** ** Where the requests go, and which keys can be missing *)

Lemma fetch_session_id_with_credentials (lib : Library)
    (username password security_token : string) (w : World) :
  environ w !! "SALESFORCE_USERNAME" = Some username ->
  environ w !! "SALESFORCE_PASSWORD" = Some password ->
  environ w !! "SALESFORCE_SECURITY_TOKEN" = Some security_token ->
  fetch_session_id lib w
  = get_session_id lib username password security_token w.
Proof.
  intros Hu Hp Ht. unfold fetch_session_id, get_credentials.
  change (upper lib "salesforce" +:+ "_PASSWORD") with "SALESFORCE_PASSWORD".
  change (upper lib "salesforce" +:+ "_USERNAME") with "SALESFORCE_USERNAME".
  change (upper lib "salesforce" +:+ "_SECURITY_TOKEN") with "SALESFORCE_SECURITY_TOKEN".
  unfold bind. rewrite (environ_get_some _ _ _ Hp), (environ_get_some _ _ _ Hu),
    (environ_get_some _ _ _ Ht).
  unfold ret, dict_item.
  destruct (credentials_lookup "salesforce" username password security_token)
    as (Lu & Lp & Lt).
  cbv zeta in Lu, Lp, Lt.
  change ("salesforce" +:+ "_username") with "salesforce_username" in *.
  change ("salesforce" +:+ "_password") with "salesforce_password" in *.
  change ("salesforce" +:+ "_security_token") with "salesforce_security_token" in *.
  rewrite Lu. unfold ret. rewrite Lp. rewrite Lt. reflexivity.
Qed.

(** X18: the names under which [fetch_session_id] reads the credentials are
    the names under which [get_credentials] stores them: with the three
    credentials configured it is the login with exactly these credentials,
    and a [KeyError] it raises always names a configuration key that is
    missing from the environment, never a key of the credentials mapping. *)
Theorem fetch_session_id_key_errors (lib : Library) (w : World) :
  (forall username password security_token,
     environ w !! "SALESFORCE_USERNAME" = Some username ->
     environ w !! "SALESFORCE_PASSWORD" = Some password ->
     environ w !! "SALESFORCE_SECURITY_TOKEN" = Some security_token ->
     fetch_session_id lib w
     = get_session_id lib username password security_token w)
  /\ (forall key,
        (fetch_session_id lib w).1 = inl (KeyError key) ->
        key ∈ configuration_keys /\ environ w !! key = None).
Proof.
  split; [intros; now apply fetch_session_id_with_credentials|].
  intros key H. unfold configuration_keys.
  destruct (fetch_session_id_missing lib w) as (H1 & H2 & H3).
  destruct (environ w !! "SALESFORCE_PASSWORD") as [p|] eqn:Hp.
  2: { rewrite H1 in H by reflexivity. injection H as <-.
       split; [do 1 constructor; constructor | exact Hp]. }
  destruct (environ w !! "SALESFORCE_USERNAME") as [u|] eqn:Hu.
  2: { rewrite H2 in H by eauto. injection H as <-.
       split; [do 2 constructor; constructor | exact Hu]. }
  destruct (environ w !! "SALESFORCE_SECURITY_TOKEN") as [t|] eqn:Ht.
  2: { rewrite H3 in H by eauto. injection H as <-.
       split; [do 3 constructor; constructor | exact Ht]. }
  rewrite (fetch_session_id_with_credentials lib u p t w Hu Hp Ht) in H.
  unfold get_session_id, get_url in H.
  destruct (environ w !! "SALESFORCE_URL") as [b|] eqn:Hb.
  - unfold bind at 1 in H. unfold bind at 1 in H.
    rewrite (environ_get_some _ _ _ Hb) in H. unfold ret at 1 in H.
    unfold bind, requests_post, http in H.
    destruct (negb _) in H; [discriminate|].
    rewrite extract_session_id_run in H.
    destruct (ET_fromstring lib _) as [root|] in H; [|discriminate].
    destruct (find root session_id_path) in H; discriminate.
  - unfold bind, environ_get in H. rewrite Hb in H. injection H as <-.
    split; [constructor | exact Hb].
Qed.

Lemma fetch_session_id_key_errors_witness :
  fetch_session_id demo_library (demo_world paged_server)
  = get_session_id demo_library "user@example.com" "p<ss" "t&k"
      (demo_world paged_server).
Proof.
  apply (proj1 (fetch_session_id_key_errors demo_library (demo_world paged_server)));
    reflexivity.
Defined.

Lemma bind_assoc {A B C} (c : M A) (f : A -> M B) (k : B -> M C) (w : World) :
  bind (bind c f) k w = bind c (fun a => bind (f a) k) w.
Proof. unfold bind. destruct (c w) as [[e|a] w1]; reflexivity. Qed.

Lemma bind_ret {A B} (a : A) (k : A -> M B) (w : World) : bind (ret a) k w = k a w.
Proof. reflexivity. Qed.

Lemma stays_ext {A} (base : string) (c c' : M A) :
  (forall w, c w = c' w) -> stays_on base c' -> stays_on base c.
Proof. intros He H w Hw. rewrite He. now apply H. Qed.

Lemma stays_quiet {A} (base : string) (c : M A) :
  (forall w, sent (c w).2 = sent w /\ environ (c w).2 = environ w) -> stays_on base c.
Proof.
  intros H w _. destruct (H w) as [Hs He]. split; [exact He|].
  exists []. rewrite app_nil_r. split; [exact Hs | constructor].
Qed.

Lemma stays_bind {A B} (base : string) (c : M A) (k : A -> M B) :
  stays_on base c -> (forall a, stays_on base (k a)) -> stays_on base (bind c k).
Proof.
  intros Hc Hk w Hw. destruct (Hc w Hw) as (He & new & Hs & Hall). unfold bind.
  destruct (c w) as [[e|a] w1]; simpl in *; [eauto|].
  destruct (Hk a w1) as (He2 & new2 & Hs2 & Hall2); [now rewrite He|].
  split; [congruence|]. exists (new ++ new2).
  split; [rewrite Hs2, Hs; now rewrite app_assoc | now apply Forall_app].
Qed.

Lemma stays_configured {A} (base : string) (k : string -> M A) :
  stays_on base (k base) -> stays_on base (bind (environ_get "SALESFORCE_URL") k).
Proof.
  intros H w Hw. unfold bind. rewrite (environ_get_some _ _ _ Hw). now apply H.
Qed.

Lemma stays_http (base suffix : string) (rq : Request) :
  url rq = base +:+ suffix -> stays_on base (http rq).
Proof.
  intros Hu w _. split; [reflexivity|]. exists [rq]. split; [reflexivity|].
  constructor; [eauto | constructor].
Qed.

Lemma stays_environ_get (base key : string) : stays_on base (environ_get key).
Proof.
  apply stays_quiet. intros w. unfold environ_get. now destruct (environ w !! key).
Qed.

Lemma stays_dict_item (base : string) (d : gmap string string) (key : string) :
  stays_on base (dict_item d key).
Proof. apply stays_quiet. intros w. unfold dict_item. now destruct (d !! key). Qed.

Lemma stays_fetch_session_id (lib : Library) (base : string) :
  stays_on base (fetch_session_id lib).
Proof.
  unfold fetch_session_id.
  apply stays_bind.
  { unfold get_credentials.
    repeat (apply stays_bind; [apply stays_environ_get | intros ?]).
    now apply stays_quiet. }
  intros credentials.
  repeat (apply stays_bind; [apply stays_dict_item | intros ?]).
  unfold get_session_id, get_url.
  eapply stays_ext; [intros w; apply bind_assoc|].
  apply stays_configured.
  eapply stays_ext; [intros w; apply bind_ret|].
  apply stays_bind; [now apply (stays_http base "/services/Soap/u/60.0")|].
  intros response. destruct (negb _); [now apply stays_quiet|].
  apply stays_quiet. intros w. rewrite extract_session_id_run.
  destruct (ET_fromstring lib (text response)) as [root|]; [|now split].
  destruct (find root session_id_path); now split.
Qed.

Lemma stays_response_json (base : string) (response : Response) :
  stays_on base (response_json response).
Proof.
  apply stays_quiet. intros w. unfold response_json. now destruct (json response).
Qed.

Lemma stays_get_rest_query_results (lib : Library)
    (base : string) (depth : nat) :
  forall query next_url,
    stays_on base (get_rest_query_results lib depth query next_url).
Proof.
  induction depth as [|depth IH]; intros query next_url; [now apply stays_quiet|].
  cbn [get_rest_query_results].
  assert (Hrest : forall u suffix, u = base +:+ suffix ->
            stays_on base
              (session_id <- fetch_session_id lib ;;
               response <- requests_get u [("Authorization", bearer session_id);
                                           ("Content-Type", "application/json")] ;;
               if negb (Z.eqb (status_code response) 200) then
                 raise (Exception ("REST query failed with a status of " +:+ failure_gap
                                   +:+ str_of_int (status_code response) +:+ ": "
                                   +:+ text response))
               else
                 data <- response_json response ;;
                 match data with
                 | JObj members =>
                     let records := default (JArr []) (dict_get "records" members) in
                     match dict_get "nextRecordsUrl" members with
                     | Some cursor =>
                         next_records <- get_rest_query_results lib depth query
                                           cursor ;;
                         lift (extend records next_records)
                     | None => ret records
                     end
                 | _ => raise (AttributeError "get")
                 end)).
  { intros u suffix ->.
    apply stays_bind; [apply stays_fetch_session_id | intros session_id].
    apply stays_bind; [now apply (stays_http base suffix) | intros response].
    destruct (negb _); [now apply stays_quiet|].
    apply stays_bind; [apply stays_response_json | intros data].
    destruct data; try (now apply stays_quiet).
    cbv zeta. destruct (dict_get "nextRecordsUrl" members); [|now apply stays_quiet].
    apply stays_bind; [apply IH | intros ?; now apply stays_quiet]. }
  destruct next_url;
    (eapply stays_ext; [intros w; apply bind_assoc|]); apply stays_configured;
    try (eapply stays_ext; [intros w; apply bind_ret|]; eapply Hrest; reflexivity);
    (eapply stays_ext; [intros w; apply bind_assoc|]);
    (apply stays_bind; [now apply stays_quiet | intros c]);
    (eapply stays_ext; [intros w; apply bind_ret|]); eapply Hrest; reflexivity.
Qed.

(** X19: whatever the server answers, every request the client sends goes to
    the configured base URL followed by something (the login path, the
    describe path, the query path or a cursor the server supplied), and the
    configuration is left as it was. *)
Theorem requests_stay_on_base (lib : Library) (base : string)
    (depth : nat) (object_name : string) (fields : option (list string))
    (limit : option Z) (w : World) :
  environ w !! "SALESFORCE_URL" = Some base ->
  environ (get_records_list lib depth object_name fields limit w).2 = environ w
  /\ exists new,
       sent (get_records_list lib depth object_name fields limit w).2
       = sent w ++ new
       /\ Forall (fun rq => exists suffix, url rq = base +:+ suffix) new.
Proof.
  revert w.
  change (stays_on base (get_records_list lib depth object_name fields limit)).
  unfold get_records_list.
  apply stays_bind.
  { destruct (_ && _)%bool; [|now apply stays_quiet].
    apply stays_bind; [|intros names; apply stays_bind;
                         [now apply stays_quiet | intros ?; now apply stays_quiet]].
    unfold get_field_names. apply stays_configured.
    apply stays_bind; [apply stays_fetch_session_id | intros session_id].
    apply stays_bind; [eapply stays_http; reflexivity | intros response].
    destruct (negb _); [now apply stays_quiet|].
    apply stays_bind; [apply stays_response_json | intros data].
    apply stays_bind; [now apply stays_quiet | intros ?; now apply stays_quiet]. }
  intros fields'. apply stays_bind; [now apply stays_quiet | intros q].
  apply stays_bind; [apply stays_get_rest_query_results | intros raw].
  apply stays_bind; [now apply stays_quiet | intros ?; now apply stays_quiet].
Qed.

Lemma requests_stay_on_base_witness :
  exists new,
    sent (get_records_list demo_library 2 "Account" (Some ["Id"; "Name"]) None
            (demo_world paged_server)).2 = new
    /\ Forall (fun rq => exists suffix, url rq = demo_base +:+ suffix) new.
Proof.
  destruct (requests_stay_on_base demo_library demo_base 2 "Account"
              (Some ["Id"; "Name"]) None (demo_world paged_server) eq_refl)
    as (_ & new & Hs & Hall).
  exists new. split; [exact Hs | exact Hall].
Defined.
